(** * faa2etc: FAA aircraft registry to EmComm Tools lookup file

    A shallow embedding of [faa2etc.py] and the properties of its
    load / join / write pipeline.

    Modelling conventions.
    - A Python [str] is a list of Unicode code points ([list N]); the
      literals of the program are written with [py "..."].
    - A raised exception is a value of [exn]; code that may raise returns
      a [result].
    - An input table is the list of rows that [csv.reader] yields for the
      file (each row a list of fields), the first one being the header.
      [csv.DictReader] and [csv.DictWriter], whose behaviour decides
      several properties, are modelled on top of that.
    - The output file is the list of strings handed to its [write]
      method, oldest first. *)

From stdpp Require Import gmap list strings fin_maps.

(** ** Python strings *)

Abbreviation str := (list N).

Fixpoint py (s : string) : str :=
  match s with
  | EmptyString => []
  | String a s' => Ascii.N_of_ascii a :: py s'
  end.
Arguments py s%_string : simpl never.

(** [str.isspace] on one code point: the code points whose bidirectional
    class is WS, B or S, or whose category is Zs. *)
Definition is_space (c : N) : bool :=
  ((9 <=? c) && (c <=? 13) || (28 <=? c) && (c <=? 32)
   || (c =? 133) || (c =? 160) || (c =? 5760)
   || (8192 <=? c) && (c <=? 8202)
   || (c =? 8232) || (c =? 8233) || (c =? 8239) || (c =? 8287)
   || (c =? 12288))%N.

Fixpoint lstrip (s : str) : str :=
  match s with
  | c :: s' => if is_space c then lstrip s' else s
  | [] => []
  end.

Definition rstrip (s : str) : str := reverse (lstrip (reverse s)).

(** [s.strip()] *)
Definition strip (s : str) : str := rstrip (lstrip s).
Arguments strip : simpl never.

(** [s] neither starts nor ends with a whitespace character. *)
Definition trimmed (s : str) : Prop :=
  (∀ c, head s = Some c → is_space c = false) ∧
  (∀ c, last s = Some c → is_space c = false).

(** ** Exceptions and results *)

Inductive exn : Type :=
  | OSError (filename : str)        (* [open] failed, whatever the cause *)
  | KeyError (key : str)            (* [row[key]], [key] not a column *)
  | AttributeError                  (* [None.strip()] *)
  | ValueError                      (* [DictWriter]: unexpected fields *)
  | FileNotFoundError (msg : str)   (* raised by [download_database_file] *)
  | ConnectionError                 (* [requests.get] could not connect *)
  | HTTPError (status : N)          (* [raise_for_status] *)
  | BadZipFile.                     (* [zipfile.ZipFile] on a non-archive *)

Inductive result (A : Type) : Type :=
  | Ok (a : A)
  | Raise (e : exn).
Arguments Ok {A} a.
Arguments Raise {A} e.

#[global] Instance result_ret : MRet result := λ A a, Ok a.
#[global] Instance result_bind : MBind result := λ A B f r,
  match r with
  | Ok a => f a
  | Raise e => Raise e
  end.

#[global] Instance result_fmap : FMap result := λ A B f r,
  match r with
  | Ok a => Ok (f a)
  | Raise e => Raise e
  end.

Definition returns {A} (r : result A) : Prop := ∃ a, r = Ok a.

(** Run [f] on the elements of [l] in order, stopping at the first
    exception: a [for] loop that collects one value per iteration. *)
Fixpoint for_each {A B} (f : A → result B) (l : list A) : result (list B) :=
  match l with
  | [] => Ok []
  | x :: l' => y ← f x; ys ← for_each f l'; Ok (y :: ys)
  end.

(** ** Python values found in a [csv.DictReader] row *)

Inductive value : Type :=
  | VNone
  | VStr (s : str)
  | VList (l : list str).

#[global] Instance value_eq_dec : EqDecision value.
Proof. solve_decision. Defined.

(** A dictionary key of a row is a column name or [None] (the reader's
    [restkey]); [None] is also a possible key of the reference mapping,
    see [process_aircraft_reference_file]. *)
Abbreviation key := (option str).

(** [dict(zip(fieldnames, row))], as successive stores into [d]. *)
Fixpoint dict_zip (fieldnames row : list str) (d : gmap key value)
  : gmap key value :=
  match fieldnames, row with
  | k :: ks, v :: vs => dict_zip ks vs (<[Some k := VStr v]> d)
  | _, _ => d
  end.

(** The dictionary [DictReader.__next__] builds from one non-blank row
    ([restkey] and [restval] are both [None]). *)
Definition DictReader_row (fieldnames row : list str) : gmap key value :=
  let d := dict_zip fieldnames row ∅ in
  let lf := length fieldnames in
  let lr := length row in
  if (lf <? lr)%nat then <[None := VList (drop lf row)]> d
  else if (lr <? lf)%nat then
    foldl (λ d k, <[Some k := VNone]> d) d (drop lr fieldnames)
  else d.

(** The rows a [DictReader] yields: the first row of the table gives the
    field names, blank rows ([[]]) after it are passed over. *)
Definition DictReader (rows : list (list str)) : list (gmap key value) :=
  match rows with
  | [] => []
  | fieldnames :: data =>
      DictReader_row fieldnames <$> filter (λ r, r ≠ []) data
  end.

(** [row[k]] *)
Definition getitem (row : gmap key value) (k : str) : result value :=
  match row !! Some k with
  | Some v => Ok v
  | None => Raise (KeyError k)
  end.

(** [v.strip()] for a value read from a row. *)
Definition value_strip (v : value) : result str :=
  match v with
  | VStr s => Ok (strip s)
  | _ => Raise AttributeError
  end.

(** A value used as a dictionary key: a string or [None]. (Only the
    [restkey] entry of a row holds a list, and the program never reads
    it.) *)
Definition value_key (v : value) : key :=
  match v with
  | VStr s => Some s
  | _ => None
  end.

(** ** Files *)

(** The rows [csv.reader] yields for each file that can be opened. *)
Abbreviation table := (list (list str)).

Definition open (fs : gmap str table) (name : str) : result table :=
  match fs !! name with
  | Some t => Ok t
  | None => Raise (OSError name)
  end.

(** ** Reference Table Loader *)

Record ReferenceEntry : Type := {
  manufacturer : str;
  model : str;
}.

(** The body of the loop of [process_aircraft_reference_file]. *)
Definition reference_row (row : gmap key value)
    (aircraft_reference : gmap key ReferenceEntry)
  : result (gmap key ReferenceEntry) :=
  code ← getitem row (py "CODE");
  manufacturer ← getitem row (py "MFR");
  model ← getitem row (py "MODEL");
  m ← value_strip manufacturer;
  md ← value_strip model;
  Ok (<[value_key code := {| manufacturer := m; model := md |}]>
        aircraft_reference).

Fixpoint reference_rows (rows : list (gmap key value))
    (aircraft_reference : gmap key ReferenceEntry)
  : result (gmap key ReferenceEntry) :=
  match rows with
  | [] => Ok aircraft_reference
  | row :: rows' =>
      aircraft_reference' ← reference_row row aircraft_reference;
      reference_rows rows' aircraft_reference'
  end.

Definition process_aircraft_reference_file (fs : gmap str table)
    (aircraft_reference_file_name : str)
  : result (gmap key ReferenceEntry) :=
  t ← open fs aircraft_reference_file_name;
  reference_rows (DictReader t) ∅.

(** ** Registration Table Loader *)

(** A dictionary display [{k1: v1, k2: v2, ...}]: the pairs are stored
    from left to right. *)
Definition dict_of {K V} `{Countable K} (items : list (K * V)) : gmap K V :=
  foldl (λ d kv, <[kv.1 := kv.2]> d) ∅ items.

Definition TYPE_REGISTRATION_MAP : gmap key str :=
  dict_of [
    (Some (py "1"), py "Individual");
    (Some (py "2"), py "Partnership");
    (Some (py "3"), py "Corporation");
    (Some (py "4"), py "Co-Owned");
    (Some (py "5"), py "Government");
    (Some (py "7"), py "LLC");
    (Some (py "8"), py "Non Citizen Corporation");
    (Some (py "9"), py "Non Citizen Co-Owned")
  ].

(** [x or d] for an optional string [x]: [None] and the empty string are
    falsy. *)
Definition or_else (x : option str) (d : str) : str :=
  match x with
  | Some (c :: s) => c :: s
  | _ => d
  end.

(** [TYPE_REGISTRATION_MAP.get(registrant_type_code) or "Unknown"] *)
Definition registrant_type_of (registrant_type_code : value) : str :=
  or_else (TYPE_REGISTRATION_MAP !! value_key registrant_type_code)
          (py "Unknown").
Arguments registrant_type_of : simpl never.

Record RegistrationRecord : Type := {
  tail_number : str;
  aircraft_reference_code : str;
  year : str;
  owner_name : str;
  city : str;
  state : str;
  mode_s_hex : str;
  registrant_type : str;
}.

(** The dictionary the loader appends for one row. *)
Definition registration_data (r : RegistrationRecord) : gmap str str :=
  dict_of [
    (py "tail_number", tail_number r);
    (py "aircraft_reference_code", aircraft_reference_code r);
    (py "year", year r);
    (py "owner_name", owner_name r);
    (py "city", city r);
    (py "state", state r);
    (py "mode_s_hex", mode_s_hex r);
    (py "registrant_type", registrant_type r)
  ].

(** The body of the loop of [process_aircraft_registration_file], up to
    the values stored in [registration_data]. *)
Definition registration_row (row : gmap key value)
  : result RegistrationRecord :=
  tail_number ← getitem row (py "N-NUMBER");
  aircraft_reference_code ← getitem row (py "MFR MDL CODE");
  year ← getitem row (py "YEAR MFR");
  owner_name ← getitem row (py "NAME");
  city ← getitem row (py "CITY");
  state ← getitem row (py "STATE");
  mode_s_hex ← getitem row (py "MODE S CODE HEX");
  registrant_type_code ← getitem row (py "TYPE REGISTRANT");
  let registrant_type := registrant_type_of registrant_type_code in
  tail_number' ← value_strip tail_number;
  aircraft_reference_code' ← value_strip aircraft_reference_code;
  year' ← value_strip year;
  owner_name' ← value_strip owner_name;
  city' ← value_strip city;
  state' ← value_strip state;
  mode_s_hex' ← value_strip mode_s_hex;
  Ok {| tail_number := tail_number';
        aircraft_reference_code := aircraft_reference_code';
        year := year';
        owner_name := owner_name';
        city := city';
        state := state';
        mode_s_hex := mode_s_hex';
        registrant_type := registrant_type |}.

(** The loader: one dictionary appended per row the reader yields. The
    dictionaries are distinct objects, so the in-place updates of
    [create_emcomm_tools_file] are modelled record by record. *)
Definition process_aircraft_registration_file (fs : gmap str table)
    (aircraft_registration_file_name : str)
  : result (list (gmap str str)) :=
  t ← open fs aircraft_registration_file_name;
  for_each (λ row, registration_data <$> registration_row row)
           (DictReader t).

(** ** Join/Transform Writer *)

(** The output file: the strings written to it so far. A writing
    operation maps the file to the file afterwards and a result. *)
Definition io (A : Type) : Type := list str → list str * result A.

#[global] Instance io_ret : MRet io := λ A a out, (out, Ok a).
#[global] Instance io_bind : MBind io := λ A B f m out,
  match m out with
  | (out', Ok a) => f a out'
  | (out', Raise e) => (out', Raise e)
  end.

(** An operation that does not touch the file. *)
Definition lift {A} (r : result A) : io A := λ out, (out, r).

Definition delimiter : N := 124.   (* | *)
Definition quotechar : N := 34.
Definition lineterminator : str := [13; 10]%N.

(** [csv.writer] with [QUOTE_MINIMAL]: a field is quoted when it holds
    the delimiter, the quote character, a carriage return or a line
    feed; inside a quoted field the quote character is doubled. *)
Definition special (c : N) : bool :=
  ((c =? delimiter) || (c =? quotechar) || (c =? 10) || (c =? 13))%N.

Definition csv_field (field : str) : str :=
  if existsb special field
  then quotechar
         :: (field ≫= λ c, if (c =? quotechar)%N then [c; c] else [c])
         ++ [quotechar]
  else field.

Fixpoint csv_join (fields : list str) : str :=
  match fields with
  | [] => []
  | [f] => f
  | f :: fields' => f ++ delimiter :: csv_join fields'
  end.

(** The line [csv.writer.writerow] writes for a row; a row made of one
    empty field is written as a pair of quotes. *)
Definition csv_line (fields : list str) : str :=
  match fields with
  | [ [] ] => [quotechar; quotechar] ++ lineterminator
  | _ => csv_join (csv_field <$> fields) ++ lineterminator
  end.

Definition csv_writerow (fields : list str) : io unit :=
  λ out, (out ++ [csv_line fields], Ok tt).

Definition fieldnames : list str := [
  py "tail_number";
  py "make";
  py "model";
  py "year";
  py "owner_name";
  py "city";
  py "state";
  py "mode_s_hex";
  py "registrant_type"
].

(** [DictWriter._dict_to_list] with [extrasaction="raise"] and
    [restval=""]. *)
Definition dict_to_list (rowdict : gmap str str) : result (list str) :=
  if decide (dom rowdict ⊆ list_to_set fieldnames)
  then Ok ((λ k, default [] (rowdict !! k)) <$> fieldnames)
  else Raise ValueError.

Definition writerow (rowdict : gmap str str) : io unit :=
  fields ← lift (dict_to_list rowdict); csv_writerow fields.

Definition writeheader : io unit :=
  writerow (dict_of (zip fieldnames fieldnames)).

(** The updates the loop of [create_emcomm_tools_file] makes to one
    registration before it is written. An entry of the reference mapping
    is a dictionary of two items, hence truthy: the conditional
    expressions test [aircraft_reference.get] for [None] only. *)
Definition join_registration (aircraft_reference : gmap key ReferenceEntry)
    (aircraft_registration : gmap str str) : gmap str str :=
  let aircraft_reference_code :=
    default [] (aircraft_registration !! py "aircraft_reference_code") in
  let aircraft_registration :=
    delete (py "aircraft_reference_code") aircraft_registration in
  let aircraft_reference_data :=
    aircraft_reference !! Some aircraft_reference_code in
  let make :=
    match aircraft_reference_data with
    | Some e => manufacturer e
    | None => py "Unknown"
    end in
  let aircraft_registration := <[py "make" := make]> aircraft_registration in
  let model' :=
    match aircraft_reference_data with
    | Some e => model e
    | None => py "Unknown"
    end in
  <[py "model" := model']> aircraft_registration.

Fixpoint write_registrations (aircraft_reference : gmap key ReferenceEntry)
    (aircraft_registrations : list (gmap str str)) : io unit :=
  match aircraft_registrations with
  | [] => mret tt
  | aircraft_registration :: rest =>
      writerow (join_registration aircraft_reference aircraft_registration);;
      write_registrations aircraft_reference rest
  end.

Definition create_emcomm_tools_file
    (aircraft_registrations : list (gmap str str))
    (aircraft_reference : gmap key ReferenceEntry) : io unit :=
  writeheader;;
  write_registrations aircraft_reference aircraft_registrations.

(** ** Acquisition *)

(** What [requests.get] meets at a URL: no connection, or a response
    with a status code and a body. The body is given as [zipfile] sees
    it: [None] when it is not a zip archive, else the entries of the
    archive in directory order, each a name and the table it holds. *)
Abbreviation archive := (list (str * table)).

Inductive http : Type :=
  | Refused
  | Response (status_code : N) (body : option archive).

(** [response.raise_for_status()] *)
Definition raise_for_status (status_code : N) : result unit :=
  if ((400 <=? status_code) && (status_code <? 600))%N
  then Raise (HTTPError status_code)
  else Ok tt.

(** [zipfile.ZipFile(zip_path, "r")] *)
Definition ZipFile (body : option archive) : result archive :=
  match body with
  | Some zip_file => Ok zip_file
  | None => Raise BadZipFile
  end.

Definition namelist (zip_file : archive) : list str := zip_file.*1.

(** [zip_file.extract(file_name, temp_directory)]: a name that occurs
    several times stands for its last entry. *)
Definition extract (zip_file : archive) (file_name : str)
    (temp_directory : gmap str table) : result (gmap str table) :=
  match last (filter (λ e, e.1 = file_name) zip_file) with
  | Some e => Ok (<[file_name := e.2]> temp_directory)
  | None => Raise (KeyError file_name)
  end.

(** The files of the temporary directory are named relative to it. *)
Definition download_database_file (net : str → http) (database_url : str)
  : result (gmap key ReferenceEntry * list (gmap str str)) :=
  match net database_url with
  | Refused => Raise ConnectionError
  | Response status_code body =>
      raise_for_status status_code;;
      zip_file ← ZipFile body;
      let file_list := namelist zip_file in
      if decide (py "MASTER.txt" ∈ file_list) then
        if decide (py "ACFTREF.txt" ∈ file_list) then
          temp_directory ← extract zip_file (py "MASTER.txt") ∅;
          temp_directory ← extract zip_file (py "ACFTREF.txt") temp_directory;
          aircraft_reference ←
            process_aircraft_reference_file temp_directory (py "ACFTREF.txt");
          aircraft_registrations ←
            process_aircraft_registration_file temp_directory (py "MASTER.txt");
          Ok (aircraft_reference, aircraft_registrations)
        else
          Raise (FileNotFoundError
                   (py "ACFTREF.txt file not found in database zip file"))
      else
        Raise (FileNotFoundError
                 (py "MASTER.txt file not found in database zip file"))
  end.

(** ** The command *)

(** Truth value of an option of the command: unset and empty are falsy. *)
Definition given (file : option str) : bool :=
  match file with
  | Some (_ :: _) => true
  | _ => false
  end.

Definition acquire (fs : gmap str table) (net : str → http)
    (database_url : str) (registration_file reference_file : option str)
  : result (gmap key ReferenceEntry * list (gmap str str)) :=
  if given registration_file && given reference_file then
    aircraft_reference ←
      process_aircraft_reference_file fs (default [] reference_file);
    aircraft_registrations ←
      process_aircraft_registration_file fs (default [] registration_file);
    Ok (aircraft_reference, aircraft_registrations)
  else download_database_file net database_url.

(** [main]: the output file is written only after both tables are
    loaded. *)
Definition main (fs : gmap str table) (net : str → http)
    (database_url : str) (registration_file reference_file : option str)
  : io unit :=
  '(aircraft_reference, aircraft_registrations) ←
    lift (acquire fs net database_url registration_file reference_file);
  create_emcomm_tools_file aircraft_registrations aircraft_reference.

(** The text of the output file. *)
Definition contents (out : list str) : str := concat out.

(** ** Example tables *)

Definition example_reference : table := [
  [py "CODE"; py "MFR"; py "MODEL"];
  [py "1234567A"; py "CESSNA"; py "172S"]
].

Definition example_header : list str := [
  py "N-NUMBER"; py "MFR MDL CODE"; py "YEAR MFR"; py "NAME"; py "CITY";
  py "STATE"; py "MODE S CODE HEX"; py "TYPE REGISTRANT"
].

Definition example_registration : table := [
  example_header;
  [py "N12345"; py "1234567A"; py "2005"; py "Jane Doe"; py "Austin";
   py "TX"; py "A12345"; py "1"];
  [py "N54321 "; py "ZZZZZZZ"; py "1999"; py " John | Roe"; py "Reno";
   py "NV"; py "A54321"; py "6"]
].

Definition example_fs : gmap str table :=
  dict_of [(py "ACFTREF.txt", example_reference);
           (py "MASTER.txt", example_registration)].

Definition no_net : str → http := λ _, Refused.

Definition example_record : RegistrationRecord := {|
  tail_number := py "N12345";
  aircraft_reference_code := py "1234567A";
  year := py "2005";
  owner_name := py "Jane Doe";
  city := py "Austin";
  state := py "TX";
  mode_s_hex := py "A12345";
  registrant_type := py "Individual";
|}.

Definition example_mapping : gmap key ReferenceEntry :=
  {[ Some (py "1234567A")
       := {| manufacturer := py "CESSNA"; model := py "172S" |} ]}.

(** A reference table in which the code [A] comes twice, with padded
    fields and a blank line. *)
Definition example_duplicates : table := [
  [py "CODE"; py "MFR"; py "MODEL"];
  [py "A"; py " CESSNA "; py "172 "];
  [];
  [py "A"; py "BEECH "; py " 35"];
  [py "B"; py "PIPER"; py "PA28"]
].

Definition example_duplicates_mapping : gmap key ReferenceEntry :=
  dict_of [
    (Some (py "A"), {| manufacturer := py "BEECH"; model := py "35" |});
    (Some (py "B"), {| manufacturer := py "PIPER"; model := py "PA28" |})
  ].





(** A server whose archive lacks [ACFTREF.txt], and one whose archive
    holds both tables next to another entry. *)
Definition example_incomplete_net : str → http :=
  λ _, Response 200 (Some [(py "MASTER.txt", example_registration)]).

Definition example_net : str → http :=
  λ _, Response 200 (Some [(py "ACFTREF.txt", example_reference);
                           (py "README.txt", []);
                           (py "MASTER.txt", example_registration)]).

(** A registration row whose registrant-type code is followed by a
    space. *)
Definition example_padded_type : list str :=
  [py "N12345"; py "1234567A"; py "2005"; py "Jane Doe"; py "Austin";
   py "TX"; py "A12345"; py "1 "].






Definition example_padded_type_record : RegistrationRecord := {|
  tail_number := py "N12345";
  aircraft_reference_code := py "1234567A";
  year := py "2005";
  owner_name := py "Jane Doe";
  city := py "Austin";
  state := py "TX";
  mode_s_hex := py "A12345";
  registrant_type := py "Unknown";
|}.

(** ** Predicates used in the statements *)


(** The row dictionary holds a string under column [k]: the header has
    the column and the row is long enough to reach it. *)
Definition has_field (row : gmap key value) (k : str) : Prop :=
  ∃ s, row !! Some k = Some (VStr s).

(** A row dictionary the reference loader can process. *)
Definition reference_row_ok (row : gmap key value) : Prop :=
  is_Some (row !! Some (py "CODE"))
  ∧ has_field row (py "MFR") ∧ has_field row (py "MODEL").


Definition entry_trimmed (e : ReferenceEntry) : Prop :=
  trimmed (manufacturer e) ∧ trimmed (model e).

Definition record_trimmed (r : RegistrationRecord) : Prop :=
  trimmed (tail_number r) ∧ trimmed (aircraft_reference_code r)
  ∧ trimmed (year r) ∧ trimmed (owner_name r) ∧ trimmed (city r)
  ∧ trimmed (state r) ∧ trimmed (mode_s_hex r) ∧ trimmed (registrant_type r).

(** The fields of the output row of a registration record, in the order
    of [fieldnames]. *)
Definition output_record (aircraft_reference : gmap key ReferenceEntry)
    (r : RegistrationRecord) : list str :=
  let entry := aircraft_reference !! Some (aircraft_reference_code r) in
  [ tail_number r;
    from_option manufacturer (py "Unknown") entry;
    from_option model (py "Unknown") entry;
    year r; owner_name r; city r; state r; mode_s_hex r;
    registrant_type r ].

(** Both loaders followed by the writer, on the two tables read. *)
Definition convert (reference registration : table) : io unit :=
  '(aircraft_reference, aircraft_registrations) ←
    lift (aircraft_reference ← reference_rows (DictReader reference) ∅;
          aircraft_registrations ←
            for_each (λ row, registration_data <$> registration_row row)
                     (DictReader registration);
          Ok (aircraft_reference, aircraft_registrations));
  create_emcomm_tools_file aircraft_registrations aircraft_reference.

(** A run of the command reads the tables [reference] and
    [registration]: from the two files named on the command line, or from
    the entries of the archive a successful download delivers. *)
Inductive reads (fs : gmap str table) (net : str → http) (database_url : str)
    (registration_file reference_file : option str)
    (reference registration : table) : Prop :=
  | reads_local :
      given registration_file && given reference_file = true →
      fs !! default [] reference_file = Some reference →
      fs !! default [] registration_file = Some registration →
      reads fs net database_url registration_file reference_file
            reference registration
  | reads_remote status_code zip_file :
      given registration_file && given reference_file = false →
      net database_url = Response status_code (Some zip_file) →
      raise_for_status status_code = Ok tt →
      extract zip_file (py "MASTER.txt") ∅
        = Ok {[py "MASTER.txt" := registration]} →
      extract zip_file (py "ACFTREF.txt") ∅
        = Ok {[py "ACFTREF.txt" := reference]} →
      reads fs net database_url registration_file reference_file
            reference registration.

(** ** Further example tables *)

(** The registration header with two columns exchanged, and a row laid
    out accordingly. *)
Definition example_header_swapped : list str := [
  py "MFR MDL CODE"; py "N-NUMBER"; py "YEAR MFR"; py "NAME"; py "CITY";
  py "STATE"; py "MODE S CODE HEX"; py "TYPE REGISTRANT"
].

Definition example_row : list str :=
  [py "N12345"; py "1234567A"; py "2005"; py "Jane Doe"; py "Austin";
   py "TX"; py "A12345"; py "1"].

Definition example_row_swapped : list str :=
  [py "1234567A"; py "N12345"; py "2005"; py "Jane Doe"; py "Austin";
   py "TX"; py "A12345"; py "1"].

(** ** How a loader fails on a table *)




(** ** The writer on any dictionary *)

(** A dictionary the writer accepts: it has no other keys than the
    columns of the output and the reference code. *)
Definition writable (d : gmap str str) : Prop :=
  dom d ⊆ list_to_set (py "aircraft_reference_code" :: fieldnames).

(** The fields written for a dictionary the writer accepts. *)
Definition written_fields (aircraft_reference : gmap key ReferenceEntry)
    (d : gmap str str) : list str :=
  let entry :=
    aircraft_reference
      !! Some (default [] (d !! py "aircraft_reference_code")) in
  [ default [] (d !! py "tail_number");
    from_option manufacturer (py "Unknown") entry;
    from_option model (py "Unknown") entry;
    default [] (d !! py "year");
    default [] (d !! py "owner_name");
    default [] (d !! py "city");
    default [] (d !! py "state");
    default [] (d !! py "mode_s_hex");
    default [] (d !! py "registrant_type") ].

(** A dictionary with a tail number and a make of its own, and one with
    a key the output does not have. *)
Definition example_sparse : gmap str str :=
  dict_of [(py "tail_number", py "N1"); (py "make", py "OWN")].

Definition example_foreign : gmap str str :=
  dict_of [(py "tail_number", py "N2"); (py "colour", py "red")].

(** ** Reading a written line back *)

(** An auxiliary reader for the lines of [csv_line] without their
    terminator, used to show that a line determines its row. It follows
    the fields from left to right: at the start of a field, inside a
    plain field, inside a quoted field, and after a quote met inside a
    quoted field. *)
Inductive csv_state : Type :=
  | AtStart
  | InPlain
  | InQuoted
  | AfterQuote.

Fixpoint csv_read (st : csv_state) (cur : str) (s : str) : list str :=
  match s with
  | [] => [cur]
  | c :: s' =>
      match st with
      | AtStart =>
          if (c =? quotechar)%N then csv_read InQuoted cur s'
          else if (c =? delimiter)%N then cur :: csv_read AtStart [] s'
          else csv_read InPlain (cur ++ [c]) s'
      | InPlain =>
          if (c =? delimiter)%N then cur :: csv_read AtStart [] s'
          else csv_read InPlain (cur ++ [c]) s'
      | InQuoted =>
          if (c =? quotechar)%N then csv_read AfterQuote cur s'
          else csv_read InQuoted (cur ++ [c]) s'
      | AfterQuote =>
          if (c =? quotechar)%N then csv_read InQuoted (cur ++ [c]) s'
          else if (c =? delimiter)%N then cur :: csv_read AtStart [] s'
          else csv_read InPlain (cur ++ [c]) s'
      end
  end.

(** What remains of a line after a field: nothing, or a delimiter and
    the next fields. *)
Definition csv_rest (cur : str) (rest : str) : list str :=
  match rest with
  | [] => [cur]
  | _ :: rest' => cur :: csv_read AtStart [] rest'
  end.

Definition follows (rest : str) : Prop :=
  rest = [] ∨ ∃ rest', rest = delimiter :: rest'.

(** A row with a pipe, a quote and a line feed inside its fields. *)
Definition example_awkward_row : list str :=
  [py "A|B"; [34; 67; 34]%N; [68; 10; 69]%N; []; py "plain"].

(** * Properties *)

(** ** The worked examples: a known code, an unknown code *)

Example main_example :
  main example_fs no_net [] (Some (py "MASTER.txt")) (Some (py "ACFTREF.txt")) []
  = ([py "tail_number|make|model|year|owner_name|city|state|mode_s_hex|registrant_type"
        ++ lineterminator;
      py "N12345|CESSNA|172S|2005|Jane Doe|Austin|TX|A12345|Individual"
        ++ lineterminator;
      py "N54321|Unknown|Unknown|1999|" ++ [quotechar] ++ py "John | Roe"
        ++ [quotechar] ++ py "|Reno|NV|A54321|Unknown" ++ lineterminator],
     Ok tt).
Proof. vm_compute. reflexivity. Qed.

Example main_remote_example :
  main ∅ example_net [] None None []
  = main example_fs no_net [] (Some (py "MASTER.txt"))
      (Some (py "ACFTREF.txt")) [].
Proof. vm_compute. reflexivity. Qed.

Example strip_example :
  strip ([9; 32] ++ py "John | Roe" ++ [160; 10; 8195])%N = py "John | Roe".
Proof. reflexivity. Qed.

(** ** Trimming *)

Section strip_facts.
Implicit Types s : str.

Lemma lstrip_split s :
  ∃ p, s = p ++ lstrip s ∧ Forall (λ c, is_space c = true) p.
Proof.
  induction s as [|c s [p [Hs Hp]]]; simpl.
  - by exists [].
  - destruct (is_space c) eqn:Hc.
    + exists (c :: p). split; [simpl; by rewrite <- Hs | by constructor].
    + by exists [].
Qed.

Lemma lstrip_head s c : head (lstrip s) = Some c → is_space c = false.
Proof.
  induction s as [|d s IH]; simpl; [done|].
  destruct (is_space d) eqn:Hd; [done|].
  simpl. by intros [= <-].
Qed.

Lemma lstrip_last s c : last (lstrip s) = Some c → last s = Some c.
Proof.
  destruct (lstrip_split s) as [p [Hs _]]. intros H.
  rewrite Hs, last_app, H. done.
Qed.

Lemma lstrip_id s :
  (∀ c, head s = Some c → is_space c = false) → lstrip s = s.
Proof.
  destruct s as [|d s]; simpl; [done|].
  intros H. by rewrite (H d).
Qed.

Lemma strip_trimmed s : trimmed (strip s).
Proof.
  unfold strip, rstrip. split; intros c.
  - rewrite head_reverse. intros H%lstrip_last.
    rewrite last_reverse in H. by apply lstrip_head in H.
  - rewrite last_reverse. apply lstrip_head.
Qed.

Lemma strip_id s : trimmed s → strip s = s.
Proof.
  intros [Hh Hl]. unfold strip, rstrip.
  rewrite (lstrip_id s) by done.
  rewrite lstrip_id; [apply reverse_involutive|].
  intros c. rewrite head_reverse. apply Hl.
Qed.

Lemma strip_idemp s : strip (strip s) = strip s.
Proof. apply strip_id, strip_trimmed. Qed.


Lemma trimmed_py_Unknown : trimmed (py "Unknown").
Proof. split; intros c [= <-]; reflexivity. Qed.
End strip_facts.

(** ** The writer *)

Section writer_facts.
Implicit Types (r : RegistrationRecord) (out : list str).
Implicit Types (aircraft_reference : gmap key ReferenceEntry).

Lemma registration_data_code r :
  registration_data r !! py "aircraft_reference_code"
  = Some (aircraft_reference_code r).
Proof. destruct r. vm_compute. reflexivity. Qed.

Lemma joined_fields r make model' :
  dict_to_list
    (<[py "model" := model']>
       (<[py "make" := make]>
          (delete (py "aircraft_reference_code") (registration_data r))))
  = Ok [tail_number r; make; model'; year r; owner_name r; city r;
        state r; mode_s_hex r; registrant_type r].
Proof. destruct r. vm_compute. reflexivity. Qed.

Lemma join_registration_fields aircraft_reference r :
  dict_to_list (join_registration aircraft_reference (registration_data r))
  = Ok (output_record aircraft_reference r).
Proof.
  unfold join_registration, output_record.
  rewrite registration_data_code. simpl default.
  destruct (aircraft_reference !! Some (aircraft_reference_code r));
    apply joined_fields.
Qed.

Lemma writerow_fields rowdict fields out :
  dict_to_list rowdict = Ok fields →
  writerow rowdict out = (out ++ [csv_line fields], Ok tt).
Proof.
  intros H. unfold writerow, mbind, io_bind, lift. by rewrite H.
Qed.

Lemma writeheader_line out :
  writeheader out = (out ++ [csv_line fieldnames], Ok tt).
Proof. apply writerow_fields. vm_compute. reflexivity. Qed.

Lemma write_registrations_lines aircraft_reference recs out :
  write_registrations aircraft_reference (registration_data <$> recs) out
  = (out ++ (csv_line ∘ output_record aircraft_reference <$> recs), Ok tt).
Proof.
  revert out. induction recs as [|r recs IH]; intros out; simpl.
  - by rewrite app_nil_r.
  - unfold mbind, io_bind.
    rewrite (writerow_fields _ _ _ (join_registration_fields _ r)).
    rewrite IH. by rewrite <- app_assoc.
Qed.

Lemma create_emcomm_tools_file_lines aircraft_reference recs out :
  create_emcomm_tools_file (registration_data <$> recs) aircraft_reference out
  = (out ++ csv_line fieldnames
           :: (csv_line ∘ output_record aircraft_reference <$> recs),
     Ok tt).
Proof.
  unfold create_emcomm_tools_file, mbind, io_bind.
  rewrite writeheader_line, write_registrations_lines.
  by rewrite <- app_assoc.
Qed.

Lemma header_line :
  csv_line fieldnames
  = py "tail_number|make|model|year|owner_name|city|state|mode_s_hex|registrant_type"
      ++ lineterminator.
Proof. reflexivity. Qed.
End writer_facts.

(** C1. For every sequence of registration records and every reference
    mapping, the writer appends to the output file first the header line
    [tail_number|make|model|year|owner_name|city|state|mode_s_hex|registrant_type],
    then one pipe-delimited line per record, in input order, and returns
    normally; the file then holds one line more than there are records,
    and for no record at all it holds the header line only. *)
Theorem writer_header_then_one_row_per_record
    (recs : list RegistrationRecord)
    (aircraft_reference : gmap key ReferenceEntry) (out : list str) :
  create_emcomm_tools_file (registration_data <$> recs) aircraft_reference out
  = (out
       ++ (py "tail_number|make|model|year|owner_name|city|state|mode_s_hex|registrant_type"
             ++ lineterminator)
       :: ((λ r, csv_line (output_record aircraft_reference r)) <$> recs),
     Ok tt)
  ∧ length (create_emcomm_tools_file (registration_data <$> recs)
              aircraft_reference []).1
    = S (length recs)
  ∧ create_emcomm_tools_file [] aircraft_reference []
    = ([py "tail_number|make|model|year|owner_name|city|state|mode_s_hex|registrant_type"
          ++ lineterminator],
       Ok tt).
Proof.
  split; [|split].
  - rewrite create_emcomm_tools_file_lines, header_line. reflexivity.
  - rewrite create_emcomm_tools_file_lines. simpl.
    by rewrite length_fmap.
  - apply (create_emcomm_tools_file_lines aircraft_reference [] []).
Qed.

(** C2. For every registration record the writer processes, the make
    and model fields of its output line (columns 1 and 2 of the row the
    writer builds from the record) are the manufacturer and model of the
    entry of the reference mapping under the record's reference code when
    there is one, and both the literal [Unknown] when there is none,
    whatever the code is, the empty string included. *)
Theorem writer_make_model
    (recs : list RegistrationRecord)
    (aircraft_reference : gmap key ReferenceEntry)
    (i : nat) (r : RegistrationRecord) :
  recs !! i = Some r →
  ∃ row,
    dict_to_list (join_registration aircraft_reference (registration_data r))
      = Ok row
    ∧ (create_emcomm_tools_file (registration_data <$> recs)
         aircraft_reference []).1 !! S i
      = Some (csv_line row)
    ∧ fieldnames !! 1 = Some (py "make")
    ∧ fieldnames !! 2 = Some (py "model")
    ∧ (∀ e, aircraft_reference !! Some (aircraft_reference_code r) = Some e →
            row !! 1 = Some (manufacturer e) ∧ row !! 2 = Some (model e))
    ∧ (aircraft_reference !! Some (aircraft_reference_code r) = None →
       row !! 1 = Some (py "Unknown") ∧ row !! 2 = Some (py "Unknown")).
Proof.
  intros Hi. exists (output_record aircraft_reference r).
  split; [apply join_registration_fields|].
  split.
  { rewrite create_emcomm_tools_file_lines. simpl.
    rewrite list_lookup_fmap, Hi. reflexivity. }
  do 2 (split; [reflexivity|]).
  unfold output_record.
  split; [intros e He | intros He]; rewrite He; simpl; done.
Qed.

Lemma writer_make_model_witness :
  ∃ row,
    dict_to_list (join_registration example_mapping
                    (registration_data example_record)) = Ok row
    ∧ (create_emcomm_tools_file (registration_data <$> [example_record])
         example_mapping []).1 !! 1
      = Some (csv_line row)
    ∧ fieldnames !! 1 = Some (py "make")
    ∧ fieldnames !! 2 = Some (py "model")
    ∧ (∀ e, example_mapping !! Some (aircraft_reference_code example_record)
            = Some e →
            row !! 1 = Some (manufacturer e) ∧ row !! 2 = Some (model e))
    ∧ (example_mapping !! Some (aircraft_reference_code example_record) = None →
       row !! 1 = Some (py "Unknown") ∧ row !! 2 = Some (py "Unknown")).
Proof.
  apply (writer_make_model [example_record] example_mapping 0 example_record).
  reflexivity.
Defined.

(** ** The dictionary reader *)

Section reader_facts.
Implicit Types (h r : list str) (k : str) (d : gmap key value).

Lemma dict_zip_other h r d (j : key) :
  (∀ k, k ∈ h → j ≠ Some k) → dict_zip h r d !! j = d !! j.
Proof.
  revert r d. induction h as [|k h IH]; intros [|v r] d Hj; simpl; try done.
  rewrite IH.
  - apply lookup_insert_ne. intros <-. by apply (Hj k); [left|].
  - intros k' Hk'. apply Hj. by right.
Qed.

Lemma dict_zip_app h1 h2 r d :
  dict_zip (h1 ++ h2) r d = dict_zip h2 (drop (length h1) r) (dict_zip h1 r d).
Proof.
  revert r d. induction h1 as [|k h1 IH]; intros [|v r] d; simpl; try done.
  by destruct h2.
Qed.

Lemma restval_other (l : list str) d (j : key) :
  (∀ k, k ∈ l → j ≠ Some k) →
  foldl (λ d k, <[Some k := VNone]> d) d l !! j = d !! j.
Proof.
  revert d. induction l as [|k l IH]; intros d Hj; simpl; [done|].
  rewrite IH.
  - apply lookup_insert_ne. intros <-. by apply (Hj k); [left|].
  - intros k' Hk'. apply Hj. by right.
Qed.

(** A column that is not in the header is not in the dictionary. *)
Lemma DictReader_row_absent h r k :
  k ∉ h → DictReader_row h r !! Some k = None.
Proof.
  intros Hk. unfold DictReader_row.
  assert (∀ k', k' ∈ h → Some k ≠ Some k') as Hne
    by (intros k' Hk' [= ->]; done).
  destruct (length h <? length r)%nat.
  - rewrite lookup_insert_ne by done. by rewrite dict_zip_other.
  - destruct (length r <? length h)%nat.
    + rewrite restval_other, dict_zip_other; [done..|].
      intros k' Hk'. apply Hne. by apply (subseteq_drop (length r)).
    + by rewrite dict_zip_other.
Qed.

(** The value under a column of the header comes from the last
    occurrence of the column: the field of the row at that position,
    or [None] when the row ends before it. *)
Lemma DictReader_row_present h1 h2 r k :
  k ∉ h2 →
  DictReader_row (h1 ++ k :: h2) r !! Some k
  = Some (from_option VStr VNone (r !! length h1)).
Proof.
  intros Hk.
  assert (∀ k', k' ∈ h2 → Some k ≠ Some k') as Hne
    by (intros k' Hk' [= ->]; done).
  unfold DictReader_row. rewrite length_app. simpl length.
  destruct (r !! length h1) as [v|] eqn:Hv; simpl from_option.
  - (* the row reaches the column *)
    assert (dict_zip (h1 ++ k :: h2) r ∅ !! Some k = Some (VStr v)) as Hz.
    { rewrite dict_zip_app, (drop_S _ v _ Hv). simpl.
      rewrite dict_zip_other by done. apply lookup_insert_eq. }
    apply lookup_lt_Some in Hv.
    destruct (Nat.ltb_spec (length h1 + S (length h2)) (length r));
      [by rewrite lookup_insert_ne|].
    destruct (Nat.ltb_spec (length r) (length h1 + S (length h2))); [|done].
    rewrite restval_other; [done|].
    intros k' Hk'. apply Hne.
    rewrite drop_app_ge in Hk' by lia.
    destruct (length r - length h1) as [|n] eqn:E; [lia|].
    simpl in Hk'. by apply (subseteq_drop n).
  - (* the row ends before the column *)
    apply lookup_ge_None in Hv.
    destruct (Nat.ltb_spec (length h1 + S (length h2)) (length r)); [lia|].
    destruct (Nat.ltb_spec (length r) (length h1 + S (length h2))); [|lia].
    rewrite drop_app_le, foldl_app by done. simpl.
    rewrite restval_other by done. apply lookup_insert_eq.
Qed.

(** The dictionary has a column exactly when the header has it. *)
Lemma DictReader_row_is_Some h r k :
  is_Some (DictReader_row h r !! Some k) ↔ k ∈ h.
Proof.
  split.
  - intros [v Hv]. destruct (decide (k ∈ h)) as [|Hk]; [done|].
    by rewrite DictReader_row_absent in Hv.
  - intros (h1 & h2 & -> & Hk)%list_elem_of_split_r.
    by rewrite DictReader_row_present.
Qed.

(** The dictionary holds a string under a column exactly when the row
    reaches the last occurrence of the column in the header. *)
Lemma DictReader_row_has_field h r k :
  has_field (DictReader_row h r) k
  ↔ ∃ h1 h2, h = h1 ++ k :: h2 ∧ (k ∉ h2) ∧ (length h1 < length r)%nat.
Proof.
  split.
  - intros [s Hs].
    assert (k ∈ h) as (h1 & h2 & -> & Hk)%list_elem_of_split_r
      by (apply (DictReader_row_is_Some h r k); eauto).
    exists h1, h2. split_and!; [done..|].
    rewrite DictReader_row_present in Hs by done.
    destruct (r !! length h1) eqn:E; [|done].
    by apply lookup_lt_Some in E.
  - intros (h1 & h2 & -> & Hk & Hlen).
    destruct (lookup_lt_is_Some_2 r (length h1) Hlen) as [v Hv].
    exists v. by rewrite DictReader_row_present, Hv.
Qed.
End reader_facts.

(** ** The loaders, row by row *)

(** Case analysis on the successive [row[...]] and [.strip()] of a loop
    body whose outcome is known. *)
Ltac loader_cases H :=
  unfold getitem, mbind, result_bind in H;
  repeat match type of H with
         | context [match ?row !! ?k with _ => _ end] =>
             let E := fresh "E" in
             destruct (row !! k) eqn:E; simpl in H; try discriminate H
         end;
  unfold value_strip in H;
  repeat match type of H with
         | context [match ?v with VStr _ => _ | _ => _ end] =>
             destruct v; simpl in H; try discriminate H
         end.

Section loader_facts.
Implicit Types (row : gmap key value).
Implicit Types (aircraft_reference : gmap key ReferenceEntry).


Lemma reference_row_Ok row aircraft_reference m :
  reference_row row aircraft_reference = Ok m
  ↔ ∃ code manufacturer model,
      row !! Some (py "CODE") = Some code
      ∧ row !! Some (py "MFR") = Some (VStr manufacturer)
      ∧ row !! Some (py "MODEL") = Some (VStr model)
      ∧ m = <[value_key code := {| manufacturer := strip manufacturer;
                                   model := strip model |}]>
              aircraft_reference.
Proof.
  split.
  - intros H. unfold reference_row in H. loader_cases H;
      injection H as <-; eauto 10.
  - intros (code & mfr & mdl & Hc & Hm & Hd & ->).
    unfold reference_row, getitem. rewrite Hc, Hm, Hd. reflexivity.
Qed.

Lemma reference_row_returns row aircraft_reference :
  returns (reference_row row aircraft_reference) ↔ reference_row_ok row.
Proof.
  unfold returns, reference_row_ok, has_field. split.
  - intros [m (code & mfr & mdl & Hc & Hm & Hd & _)%reference_row_Ok].
    eauto 10.
  - intros ([code Hc] & [mfr Hm] & [mdl Hd]).
    eexists. apply reference_row_Ok. eauto 10.
Qed.

Lemma registration_row_Ok row r :
  registration_row row = Ok r
  ↔ ∃ n c y o ci s m code,
      row !! Some (py "N-NUMBER") = Some (VStr n)
      ∧ row !! Some (py "MFR MDL CODE") = Some (VStr c)
      ∧ row !! Some (py "YEAR MFR") = Some (VStr y)
      ∧ row !! Some (py "NAME") = Some (VStr o)
      ∧ row !! Some (py "CITY") = Some (VStr ci)
      ∧ row !! Some (py "STATE") = Some (VStr s)
      ∧ row !! Some (py "MODE S CODE HEX") = Some (VStr m)
      ∧ row !! Some (py "TYPE REGISTRANT") = Some code
      ∧ r = {| tail_number := strip n;
               aircraft_reference_code := strip c;
               year := strip y;
               owner_name := strip o;
               city := strip ci;
               state := strip s;
               mode_s_hex := strip m;
               registrant_type := registrant_type_of code |}.
Proof.
  split.
  - intros H. unfold registration_row in H. loader_cases H;
      injection H as <-; eauto 20.
  - intros (n & c & y & o & ci & s & m & code
            & Hn & Hc & Hy & Ho & Hci & Hs & Hm & Hcode & ->).
    unfold registration_row, getitem.
    rewrite Hn, Hc, Hy, Ho, Hci, Hs, Hm, Hcode. reflexivity.
Qed.

End loader_facts.

(** ** The loaders, table by table *)

Section loop_facts.
Context {A B : Type}.
Implicit Types (f : A → result B) (l : list A).

Lemma for_each_Ok f l ys :
  for_each f l = Ok ys ↔ Forall2 (λ x y, f x = Ok y) l ys.
Proof.
  revert ys. induction l as [|x l IH]; intros ys; simpl.
  - split; [intros [= <-]; constructor | by inversion 1].
  - unfold mbind, result_bind. split.
    + destruct (f x) as [y|] eqn:Hx; [|done].
      destruct (for_each f l) as [ys'|]; [|done].
      intros [= <-]. constructor; [done|]. by apply IH.
    + inversion 1 as [|? y ? ys' Hx Hl]; subst.
      apply IH in Hl. by rewrite Hx, Hl.
Qed.

End loop_facts.

Section table_facts.
Implicit Types (rows : list (gmap key value)).
Implicit Types (aircraft_reference m : gmap key ReferenceEntry).

Lemma reference_rows_app rows1 rows2 aircraft_reference :
  reference_rows (rows1 ++ rows2) aircraft_reference
  = reference_rows rows1 aircraft_reference ≫= reference_rows rows2.
Proof.
  revert aircraft_reference.
  induction rows1 as [|row rows1 IH]; intros m; simpl; [done|].
  unfold mbind at 1 3, result_bind.
  destruct (reference_row row m); [apply IH | done].
Qed.


(** Rows that carry another code leave the entry of a code alone. *)
Lemma reference_rows_other rows aircraft_reference m (k : key) :
  reference_rows rows aircraft_reference = Ok m →
  (∀ row, row ∈ rows → value_key <$> row !! Some (py "CODE") ≠ Some k) →
  m !! k = aircraft_reference !! k.
Proof.
  revert aircraft_reference.
  induction rows as [|row rows IH]; intros m0; simpl.
  - by intros [= <-].
  - unfold mbind, result_bind.
    destruct (reference_row row m0) as [m1|] eqn:Hrow; [|done].
    intros Hrows Hk. rewrite (IH m1 Hrows).
    + apply reference_row_Ok in Hrow
        as (code & mfr & mdl & Hc & _ & _ & ->).
      apply lookup_insert_ne. intros Heq.
      apply (Hk row); [by left|]. by rewrite Hc, <- Heq.
    + intros row' Hrow'. apply Hk. by right.
Qed.

(** The entry of a code is the one stored for the last row that
    carries it. *)
Lemma reference_rows_last pre row post aircraft_reference m c :
  reference_rows (pre ++ row :: post) aircraft_reference = Ok m →
  row !! Some (py "CODE") = Some (VStr c) →
  (∀ row', row' ∈ post → row' !! Some (py "CODE") ≠ Some (VStr c)) →
  ∃ mfr mdl,
    row !! Some (py "MFR") = Some (VStr mfr)
    ∧ row !! Some (py "MODEL") = Some (VStr mdl)
    ∧ m !! Some c = Some {| manufacturer := strip mfr; model := strip mdl |}.
Proof.
  rewrite reference_rows_app. unfold mbind at 1, result_bind. simpl.
  destruct (reference_rows pre aircraft_reference) as [m1|]; [|done].
  unfold mbind, result_bind.
  destruct (reference_row row m1) as [m2|] eqn:Hrow; [|done].
  intros Hpost Hc Hlater.
  apply reference_row_Ok in Hrow as (code & mfr & mdl & Hc' & Hm & Hd & ->).
  rewrite Hc in Hc'. injection Hc' as <-.
  exists mfr, mdl. split_and!; [done..|].
  rewrite (reference_rows_other _ _ _ (Some c) Hpost).
  - apply lookup_insert_eq.
  - intros row' Hrow' Heq. apply (Hlater row' Hrow').
    destruct (row' !! Some (py "CODE")) as [[]|]; simpl in Heq; congruence.
Qed.
End table_facts.

(** ** Registrant types *)

Lemma registrant_type_of_other (code : value) :
  code ∉ [VStr (py "1"); VStr (py "2"); VStr (py "3"); VStr (py "4");
          VStr (py "5"); VStr (py "7"); VStr (py "8"); VStr (py "9")] →
  registrant_type_of code = py "Unknown".
Proof.
  rewrite !not_elem_of_cons. intros (H1 & H2 & H3 & H4 & H5 & H7 & H8 & H9 & _).
  destruct code as [|s|l]; [reflexivity| |reflexivity].
  unfold registrant_type_of, TYPE_REGISTRATION_MAP, dict_of. simpl.
  rewrite !lookup_insert_ne by congruence. by rewrite lookup_empty.
Qed.

(** C3. For every registration row the loader turns into a record, the
    registrant type of the record is the description of the row's
    registrant-type code in the fixed enumeration 1 Individual,
    2 Partnership, 3 Corporation, 4 Co-Owned, 5 Government, 7 LLC,
    8 Non Citizen Corporation, 9 Non Citizen Co-Owned, and the literal
    [Unknown] for any other code, the blank code included. *)
Theorem registrant_type_enumeration
    (header row : list str) (r : RegistrationRecord) :
  registration_row (DictReader_row header row) = Ok r →
  ∃ code,
    DictReader_row header row !! Some (py "TYPE REGISTRANT") = Some code
    ∧ (code = VStr (py "1") → registrant_type r = py "Individual")
    ∧ (code = VStr (py "2") → registrant_type r = py "Partnership")
    ∧ (code = VStr (py "3") → registrant_type r = py "Corporation")
    ∧ (code = VStr (py "4") → registrant_type r = py "Co-Owned")
    ∧ (code = VStr (py "5") → registrant_type r = py "Government")
    ∧ (code = VStr (py "7") → registrant_type r = py "LLC")
    ∧ (code = VStr (py "8") → registrant_type r = py "Non Citizen Corporation")
    ∧ (code = VStr (py "9") → registrant_type r = py "Non Citizen Co-Owned")
    ∧ (code ∉ [VStr (py "1"); VStr (py "2"); VStr (py "3"); VStr (py "4");
               VStr (py "5"); VStr (py "7"); VStr (py "8"); VStr (py "9")] →
       registrant_type r = py "Unknown")
    ∧ (code = VStr [] → registrant_type r = py "Unknown").
Proof.
  intros H. apply registration_row_Ok in H
    as (n & c & y & o & ci & s & m & code & _ & _ & _ & _ & _ & _ & _ & Hcode & ->).
  exists code. split; [done|]. simpl.
  split_and!; try (intros ->; reflexivity).
  apply registrant_type_of_other.
Qed.

Lemma registrant_type_enumeration_witness :
  ∃ code,
    DictReader_row example_header
      [py "N12345"; py "1234567A"; py "2005"; py "Jane Doe"; py "Austin";
       py "TX"; py "A12345"; py "1"] !! Some (py "TYPE REGISTRANT") = Some code
    ∧ (code = VStr (py "1") → registrant_type example_record = py "Individual")
    ∧ (code = VStr (py "2") → registrant_type example_record = py "Partnership")
    ∧ (code = VStr (py "3") → registrant_type example_record = py "Corporation")
    ∧ (code = VStr (py "4") → registrant_type example_record = py "Co-Owned")
    ∧ (code = VStr (py "5") → registrant_type example_record = py "Government")
    ∧ (code = VStr (py "7") → registrant_type example_record = py "LLC")
    ∧ (code = VStr (py "8") →
       registrant_type example_record = py "Non Citizen Corporation")
    ∧ (code = VStr (py "9") →
       registrant_type example_record = py "Non Citizen Co-Owned")
    ∧ (code ∉ [VStr (py "1"); VStr (py "2"); VStr (py "3"); VStr (py "4");
               VStr (py "5"); VStr (py "7"); VStr (py "8"); VStr (py "9")] →
       registrant_type example_record = py "Unknown")
    ∧ (code = VStr [] → registrant_type example_record = py "Unknown").
Proof.
  apply (registrant_type_enumeration example_header
           [py "N12345"; py "1234567A"; py "2005"; py "Jane Doe"; py "Austin";
            py "TX"; py "A12345"; py "1"] example_record).
  vm_compute. reflexivity.
Defined.

(** ** Duplicate reference codes *)

(** C4. When the reference loader returns a mapping for a table, the
    mapping binds the code of a data row that no later data row repeats
    to the trimmed manufacturer and model of that row: of several rows
    with one code, the last one wins. *)
Theorem reference_last_row_wins
    (fs : gmap str table) (name : str) (header : list str)
    (pre : table) (row : list str) (post : table) (c : str)
    (m : gmap key ReferenceEntry) :
  fs !! name = Some (header :: pre ++ row :: post) →
  process_aircraft_reference_file fs name = Ok m →
  DictReader_row header row !! Some (py "CODE") = Some (VStr c) →
  (∀ row', row' ∈ post →
           DictReader_row header row' !! Some (py "CODE") ≠ Some (VStr c)) →
  ∃ mfr mdl,
    DictReader_row header row !! Some (py "MFR") = Some (VStr mfr)
    ∧ DictReader_row header row !! Some (py "MODEL") = Some (VStr mdl)
    ∧ m !! Some c = Some {| manufacturer := strip mfr; model := strip mdl |}.
Proof.
  intros Hfs Hm Hc Hpost.
  unfold process_aircraft_reference_file, open in Hm. rewrite Hfs in Hm.
  simpl in Hm.
  assert (row ≠ []) as Hrow.
  { intros ->.
    assert (has_field (DictReader_row header []) (py "CODE")) as Hf
      by (by exists c).
    apply DictReader_row_has_field in Hf as (h1 & h2 & _ & _ & Hlen).
    simpl in Hlen. lia. }
  rewrite filter_app, filter_cons_True, fmap_app, fmap_cons in Hm by done.
  apply (reference_rows_last _ _ _ _ _ c Hm Hc).
  intros d (row' & -> & Hrow')%list_elem_of_fmap.
  apply Hpost. by apply list_elem_of_filter in Hrow' as [_ ?].
Qed.

Lemma reference_last_row_wins_witness :
  ∃ mfr mdl,
    DictReader_row [py "CODE"; py "MFR"; py "MODEL"]
      [py "A"; py "BEECH "; py " 35"] !! Some (py "MFR") = Some (VStr mfr)
    ∧ DictReader_row [py "CODE"; py "MFR"; py "MODEL"]
        [py "A"; py "BEECH "; py " 35"] !! Some (py "MODEL") = Some (VStr mdl)
    ∧ example_duplicates_mapping !! Some (py "A")
      = Some {| manufacturer := strip mfr; model := strip mdl |}.
Proof.
  apply (reference_last_row_wins
           {[py "ACFTREF.txt" := example_duplicates]} (py "ACFTREF.txt")
           [py "CODE"; py "MFR"; py "MODEL"]
           [[py "A"; py " CESSNA "; py "172 "]; []]
           [py "A"; py "BEECH "; py " 35"]
           [[py "B"; py "PIPER"; py "PA28"]]
           (py "A") example_duplicates_mapping).
  - vm_compute. reflexivity.
  - vm_compute. reflexivity.
  - vm_compute. reflexivity.
  - intros row' ->%list_elem_of_singleton. vm_compute. discriminate.
Defined.

(** ** Rows kept, rows passed over, rows that raise *)

Section registration_table_facts.
Implicit Types (rows : list (gmap key value)).


Lemma registration_rows_Ok rows regs :
  for_each (λ row, registration_data <$> registration_row row) rows = Ok regs
  ↔ ∃ recs, regs = registration_data <$> recs
            ∧ Forall2 (λ row r, registration_row row = Ok r) rows recs.
Proof.
  rewrite for_each_Ok. split.
  - induction 1 as [|row reg rows regs Hrow _ (recs & -> & IH)].
    + exists []. by split; [|constructor].
    + destruct (registration_row row) as [r|] eqn:Hr; [|done].
      injection Hrow as <-. exists (r :: recs). by split; [|constructor].
  - intros (recs & -> & H). induction H as [|row r rows recs Hrow _ IH].
    + constructor.
    + constructor; [by rewrite Hrow | done].
Qed.

End registration_table_facts.




(** ** When a loader fails *)



(** ** A required entry missing from the archive *)

Section missing_entry_facts.
Implicit Types (fs : gmap str table) (msg : str).

(** The loaders never raise [FileNotFoundError] themselves. *)
Lemma reference_row_not_missing (row : gmap key value)
    (m : gmap key ReferenceEntry) msg :
  reference_row row m ≠ Raise (FileNotFoundError msg).
Proof. intros H. unfold reference_row in H. loader_cases H. Qed.

Lemma registration_row_not_missing (row : gmap key value) msg :
  registration_row row ≠ Raise (FileNotFoundError msg).
Proof. intros H. unfold registration_row in H. loader_cases H. Qed.

Lemma reference_file_not_missing fs (name : str) msg :
  process_aircraft_reference_file fs name ≠ Raise (FileNotFoundError msg).
Proof.
  unfold process_aircraft_reference_file, open.
  destruct (fs !! name) as [t|]; [simpl|done].
  generalize (∅ : gmap key ReferenceEntry).
  induction (DictReader t) as [|row rows IH]; intros m; simpl; [done|].
  unfold mbind, result_bind.
  destruct (reference_row row m) as [m'|e] eqn:Hrow; [apply IH|].
  intros [= ->]. by apply reference_row_not_missing in Hrow.
Qed.

Lemma registration_file_not_missing fs (name : str) msg :
  process_aircraft_registration_file fs name ≠ Raise (FileNotFoundError msg).
Proof.
  unfold process_aircraft_registration_file, open.
  destruct (fs !! name) as [t|]; [simpl|done].
  induction (DictReader t) as [|row rows IH]; simpl; [done|].
  unfold mbind, result_bind.
  destruct (registration_row row) as [r|e] eqn:Hrow; simpl.
  - by destruct (for_each _ rows).
  - intros [= ->]. by apply registration_row_not_missing in Hrow.
Qed.

Lemma download_not_missing (net : str → http) (database_url : str)
    (status_code : N) (zip_file : archive) msg :
  net database_url = Response status_code (Some zip_file) →
  py "MASTER.txt" ∈ namelist zip_file →
  py "ACFTREF.txt" ∈ namelist zip_file →
  download_database_file net database_url ≠ Raise (FileNotFoundError msg).
Proof.
  intros Hnet H1 H2. unfold download_database_file. rewrite Hnet.
  unfold mbind at 1, result_bind.
  destruct (raise_for_status status_code) as [|e] eqn:Hs.
  - simpl. rewrite !decide_True by done.
    unfold mbind at 1, result_bind.
    destruct (extract zip_file (py "MASTER.txt") ∅) as [d1|e] eqn:E1.
    + unfold mbind at 1, result_bind.
      destruct (extract zip_file (py "ACFTREF.txt") d1) as [d2|e] eqn:E2.
      * unfold mbind at 1, result_bind.
        destruct (process_aircraft_reference_file d2 (py "ACFTREF.txt"))
          as [m|e] eqn:E3.
        -- unfold mbind, result_bind.
           destruct (process_aircraft_registration_file d2 (py "MASTER.txt"))
             as [l|e] eqn:E4; [done|].
           intros [= ->]. by apply registration_file_not_missing in E4.
        -- intros [= ->]. by apply reference_file_not_missing in E3.
      * unfold extract in E2. destruct (last _) in E2; [done|].
        by injection E2 as <-.
    + unfold extract in E1. destruct (last _) in E1; [done|].
      by injection E1 as <-.
  - unfold raise_for_status in Hs. destruct (_ && _) in Hs; [|done].
    by injection Hs as <-.
Qed.
End missing_entry_facts.

(** C7. In remote mode, once the archive is downloaded and opened, the
    acquisition raises [FileNotFoundError] exactly when [MASTER.txt] or
    [ACFTREF.txt] is not in the name list of the archive, with a message
    that names the missing entry. Opening the archive never raises this
    error, so it is told apart from an archive error; the run ends with
    it and writes nothing to the output file. *)
Theorem missing_entry_aborts
    (fs : gmap str table) (net : str → http) (database_url : str)
    (registration_file reference_file : option str)
    (status_code : N) (zip_file : archive) (out : list str) :
  given registration_file && given reference_file = false →
  net database_url = Response status_code (Some zip_file) →
  raise_for_status status_code = Ok tt →
  let msg :=
    if decide (py "MASTER.txt" ∈ namelist zip_file)
    then py "ACFTREF.txt file not found in database zip file"
    else py "MASTER.txt file not found in database zip file" in
  (py "MASTER.txt" ∉ namelist zip_file ∨ py "ACFTREF.txt" ∉ namelist zip_file
   ↔ ∃ msg', download_database_file net database_url
             = Raise (FileNotFoundError msg'))
  ∧ (py "MASTER.txt" ∉ namelist zip_file
     ∨ py "ACFTREF.txt" ∉ namelist zip_file →
     download_database_file net database_url = Raise (FileNotFoundError msg)
     ∧ main fs net database_url registration_file reference_file out
       = (out, Raise (FileNotFoundError msg)))
  ∧ (∀ body msg', ZipFile body ≠ Raise (FileNotFoundError msg')).
Proof.
  intros Hmode Hnet Hstatus msg.
  assert (py "MASTER.txt" ∉ namelist zip_file
          ∨ py "ACFTREF.txt" ∉ namelist zip_file →
          download_database_file net database_url
          = Raise (FileNotFoundError msg)) as Hd.
  { intros Hmissing.
    unfold download_database_file. rewrite Hnet, Hstatus. simpl.
    subst msg. destruct (decide (py "MASTER.txt" ∈ namelist zip_file));
      [|done].
    destruct (decide (py "ACFTREF.txt" ∈ namelist zip_file)); [|done].
    by destruct Hmissing. }
  split_and!.
  - split; [by eauto|]. intros [msg' Hraise].
    destruct (decide (py "MASTER.txt" ∈ namelist zip_file)); [|by left].
    destruct (decide (py "ACFTREF.txt" ∈ namelist zip_file)); [|by right].
    by apply (download_not_missing net database_url status_code zip_file msg')
      in Hraise.
  - intros Hmissing. split; [by apply Hd|].
    unfold main, acquire. rewrite Hmode, (Hd Hmissing). reflexivity.
  - by intros [z|] msg'.
Qed.

Lemma missing_entry_aborts_witness :
  download_database_file example_incomplete_net []
  = Raise (FileNotFoundError
             (py "ACFTREF.txt file not found in database zip file"))
  ∧ main example_fs example_incomplete_net [] None None []
    = ([], Raise (FileNotFoundError
                    (py "ACFTREF.txt file not found in database zip file"))).
Proof.
  destruct (missing_entry_aborts example_fs example_incomplete_net [] None None
              200 [(py "MASTER.txt", example_registration)] [])
    as (_ & Hraise & _); [reflexivity..|].
  apply Hraise.
  right. change (py "ACFTREF.txt" ∉ [py "MASTER.txt"]).
  intros H%list_elem_of_singleton. discriminate H.
Defined.

(** ** Trimmed fields *)

Section trimmed_facts.
Implicit Types (rows : list (gmap key value)).
Implicit Types (aircraft_reference m : gmap key ReferenceEntry).

Lemma strip_fixed_trimmed (s : str) : strip s = s → trimmed s.
Proof. intros <-. apply strip_trimmed. Qed.

Lemma registrant_type_of_trimmed (code : value) :
  trimmed (registrant_type_of code).
Proof.
  destruct (decide (code ∈ [VStr (py "1"); VStr (py "2"); VStr (py "3");
                            VStr (py "4"); VStr (py "5"); VStr (py "7");
                            VStr (py "8"); VStr (py "9")])) as [Hin|Hout].
  - repeat (apply elem_of_cons in Hin as [->|Hin];
            [by apply strip_fixed_trimmed|]).
    by apply elem_of_nil in Hin.
  - rewrite registrant_type_of_other by done. apply trimmed_py_Unknown.
Qed.

Lemma registration_row_trimmed (row : gmap key value) r :
  registration_row row = Ok r → record_trimmed r.
Proof.
  intros (n & c & y & o & ci & s & m & code & _ & _ & _ & _ & _ & _ & _ & _ & ->)
    %registration_row_Ok.
  unfold record_trimmed. simpl.
  split_and!; try apply strip_trimmed. apply registrant_type_of_trimmed.
Qed.

Lemma reference_rows_trimmed rows aircraft_reference m :
  map_Forall (λ _, entry_trimmed) aircraft_reference →
  reference_rows rows aircraft_reference = Ok m →
  map_Forall (λ _, entry_trimmed) m.
Proof.
  revert aircraft_reference.
  induction rows as [|row rows IH]; intros m0 Hm0; simpl.
  - by intros [= <-].
  - unfold mbind, result_bind.
    destruct (reference_row row m0) as [m1|] eqn:Hrow; [|done].
    apply IH.
    apply reference_row_Ok in Hrow as (code & mfr & mdl & _ & _ & _ & ->).
    apply map_Forall_insert_2; [|done].
    split; apply strip_trimmed.
Qed.

Lemma reference_file_trimmed (fs : gmap str table) name m :
  process_aircraft_reference_file fs name = Ok m →
  map_Forall (λ _, entry_trimmed) m.
Proof.
  unfold process_aircraft_reference_file, open.
  destruct (fs !! name) as [t|]; [|done]. simpl.
  apply reference_rows_trimmed, map_Forall_empty.
Qed.

Lemma registration_file_trimmed (fs : gmap str table) name regs :
  process_aircraft_registration_file fs name = Ok regs →
  ∃ recs, regs = registration_data <$> recs ∧ Forall record_trimmed recs.
Proof.
  unfold process_aircraft_registration_file, open.
  destruct (fs !! name) as [t|]; [|done]. simpl.
  intros (recs & -> & H)%registration_rows_Ok.
  exists recs. split; [done|].
  induction H as [|row r rows recs Hr%registration_row_trimmed _ IH];
    by constructor.
Qed.

Lemma output_record_trimmed aircraft_reference r :
  map_Forall (λ _, entry_trimmed) aircraft_reference →
  record_trimmed r →
  Forall trimmed (output_record aircraft_reference r).
Proof.
  intros Href (Ht & _ & Hy & Ho & Hc & Hs & Hm & Hr).
  unfold output_record.
  destruct (aircraft_reference !! Some (aircraft_reference_code r))
    as [e|] eqn:He; simpl.
  - destruct (Href _ _ He).
    repeat (apply Forall_cons; split; [done|]). by apply Forall_nil.
  - repeat (apply Forall_cons; split; [done || apply trimmed_py_Unknown|]).
    by apply Forall_nil.
Qed.

Lemma fieldnames_trimmed : Forall trimmed fieldnames.
Proof.
  unfold fieldnames.
  repeat (apply Forall_cons; split; [by apply strip_fixed_trimmed|]).
  by apply Forall_nil.
Qed.

Lemma acquire_trimmed fs net database_url registration_file reference_file
    aircraft_reference regs :
  acquire fs net database_url registration_file reference_file
    = Ok (aircraft_reference, regs) →
  map_Forall (λ _, entry_trimmed) aircraft_reference
  ∧ ∃ recs, regs = registration_data <$> recs ∧ Forall record_trimmed recs.
Proof.
  assert (∀ fs' n1 n2,
            (aircraft_reference ← process_aircraft_reference_file fs' n1;
             aircraft_registrations ←
               process_aircraft_registration_file fs' n2;
             Ok (aircraft_reference, aircraft_registrations))
            = Ok (aircraft_reference, regs) →
            map_Forall (λ _, entry_trimmed) aircraft_reference
            ∧ ∃ recs, regs = registration_data <$> recs
                      ∧ Forall record_trimmed recs) as Hloaders.
  { intros fs' n1 n2. unfold mbind, result_bind.
    destruct (process_aircraft_reference_file fs' n1) as [m|] eqn:H1; [|done].
    destruct (process_aircraft_registration_file fs' n2) as [l|] eqn:H2;
      [|done].
    intros [= <- <-]. split.
    - by eapply reference_file_trimmed.
    - by eapply registration_file_trimmed. }
  unfold acquire.
  destruct (given registration_file && given reference_file);
    [apply Hloaders|].
  unfold download_database_file.
  destruct (net database_url) as [|status_code body]; [done|].
  unfold mbind at 1, result_bind.
  destruct (raise_for_status status_code); [|done].
  unfold mbind at 1, result_bind.
  destruct (ZipFile body) as [zip_file|]; [|done].
  repeat case_decide; try done.
  unfold mbind at 1, result_bind.
  destruct (extract zip_file (py "MASTER.txt") ∅) as [d1|]; [|done].
  unfold mbind at 1, result_bind.
  destruct (extract zip_file (py "ACFTREF.txt") d1) as [d2|]; [|done].
  apply Hloaders.
Qed.
End trimmed_facts.

Lemma registrant_code_used_untrimmed :
  registrant_type
    <$> registration_row (DictReader_row example_header example_padded_type)
  = Ok (py "Unknown")
  ∧ DictReader_row example_header example_padded_type
      !! Some (py "TYPE REGISTRANT") = Some (VStr (py "1 "))
  ∧ strip (py "1 ") = py "1"
  ∧ registrant_type_of (VStr (strip (py "1 "))) = py "Individual".
Proof. split_and!; vm_compute; reflexivity. Qed.

(** C8, amended. Every string field of a registration row except the
    registrant-type code is whitespace-trimmed before it is used: the
    record holds the trimmed tail number, reference code, year, owner
    name, city, state and transponder identifier, while the
    registrant-type code is looked up as read. Every field of every line
    a run writes, header included, carries no leading or trailing
    whitespace. *)
Theorem fields_trimmed :
  (∀ (header row : list str) (r : RegistrationRecord),
     registration_row (DictReader_row header row) = Ok r →
     ∃ n c y o ci s m code,
       DictReader_row header row !! Some (py "N-NUMBER") = Some (VStr n)
       ∧ DictReader_row header row !! Some (py "MFR MDL CODE") = Some (VStr c)
       ∧ DictReader_row header row !! Some (py "YEAR MFR") = Some (VStr y)
       ∧ DictReader_row header row !! Some (py "NAME") = Some (VStr o)
       ∧ DictReader_row header row !! Some (py "CITY") = Some (VStr ci)
       ∧ DictReader_row header row !! Some (py "STATE") = Some (VStr s)
       ∧ DictReader_row header row !! Some (py "MODE S CODE HEX")
         = Some (VStr m)
       ∧ DictReader_row header row !! Some (py "TYPE REGISTRANT") = Some code
       ∧ r = {| tail_number := strip n;
                aircraft_reference_code := strip c;
                year := strip y;
                owner_name := strip o;
                city := strip ci;
                state := strip s;
                mode_s_hex := strip m;
                registrant_type := registrant_type_of code |})
  ∧ (∀ (fs : gmap str table) (net : str → http) (database_url : str)
       (registration_file reference_file : option str) (out : list str),
       ∃ rows : list (list str),
         (main fs net database_url registration_file reference_file out).1
         = out ++ (csv_line <$> rows)
         ∧ Forall (λ fields, length fields = 9 ∧ Forall trimmed fields) rows).
Proof.
  split.
  - intros header row r H. by apply registration_row_Ok in H.
  - intros fs net database_url registration_file reference_file out.
    unfold main, mbind, io_bind, lift.
    destruct (acquire _ _ _ _ _) as [[aircraft_reference regs]|] eqn:Ha.
    + apply acquire_trimmed in Ha as (Href & recs & -> & Hrecs).
      rewrite create_emcomm_tools_file_lines. simpl.
      exists (fieldnames :: (output_record aircraft_reference <$> recs)).
      split.
      * by rewrite fmap_cons, <- list_fmap_compose.
      * constructor; [split; [done | apply fieldnames_trimmed]|].
        apply Forall_fmap, Forall_forall. intros r Hr. simpl.
        split; [done|]. apply output_record_trimmed; [done|].
        by eapply Forall_forall in Hrecs.
    + exists []. simpl. by rewrite app_nil_r.
Qed.

Lemma fields_trimmed_witness :
  ∃ n c y o ci s m code,
    DictReader_row example_header example_padded_type
      !! Some (py "N-NUMBER") = Some (VStr n)
    ∧ DictReader_row example_header example_padded_type
        !! Some (py "MFR MDL CODE") = Some (VStr c)
    ∧ DictReader_row example_header example_padded_type
        !! Some (py "YEAR MFR") = Some (VStr y)
    ∧ DictReader_row example_header example_padded_type
        !! Some (py "NAME") = Some (VStr o)
    ∧ DictReader_row example_header example_padded_type
        !! Some (py "CITY") = Some (VStr ci)
    ∧ DictReader_row example_header example_padded_type
        !! Some (py "STATE") = Some (VStr s)
    ∧ DictReader_row example_header example_padded_type
        !! Some (py "MODE S CODE HEX") = Some (VStr m)
    ∧ DictReader_row example_header example_padded_type
        !! Some (py "TYPE REGISTRANT") = Some code
    ∧ example_padded_type_record
      = {| tail_number := strip n;
           aircraft_reference_code := strip c;
           year := strip y;
           owner_name := strip o;
           city := strip ci;
           state := strip s;
           mode_s_hex := strip m;
           registrant_type := registrant_type_of code |}.
Proof.
  destruct fields_trimmed as [Hrow _].
  apply (Hrow example_header example_padded_type example_padded_type_record).
  vm_compute. reflexivity.
Defined.

(** ** The output depends on the two tables only *)

Section run_facts.
Implicit Types (fs : gmap str table) (net : str → http).

Lemma extract_singleton (zip_file : archive) (name : str) (t : table)
    (temp_directory : gmap str table) :
  extract zip_file name ∅ = Ok {[name := t]} →
  name ∈ namelist zip_file
  ∧ extract zip_file name temp_directory = Ok (<[name := t]> temp_directory).
Proof.
  unfold extract.
  destruct (last (filter (λ e, e.1 = name) zip_file)) as [e|] eqn:He; [|done].
  intros Heq.
  assert (e.2 = t) as ->.
  { apply (f_equal (λ r : result (gmap str table),
                      match r with Ok d => d !! name | Raise _ => None end))
      in Heq.
    rewrite lookup_insert_eq, lookup_singleton_eq in Heq. congruence. }
  split; [|done].
  apply last_Some_elem_of, list_elem_of_filter in He as [<- He].
  unfold namelist. apply list_elem_of_fmap. by exists e.
Qed.

Lemma load_tables fs (reference_name registration_name : str)
    (reference registration : table) :
  fs !! reference_name = Some reference →
  fs !! registration_name = Some registration →
  (aircraft_reference ← process_aircraft_reference_file fs reference_name;
   aircraft_registrations ←
     process_aircraft_registration_file fs registration_name;
   Ok (aircraft_reference, aircraft_registrations))
  = (aircraft_reference ← reference_rows (DictReader reference) ∅;
     aircraft_registrations ←
       for_each (λ row, registration_data <$> registration_row row)
                (DictReader registration);
     Ok (aircraft_reference, aircraft_registrations)).
Proof.
  intros H1 H2.
  unfold process_aircraft_reference_file,
    process_aircraft_registration_file, open.
  by rewrite H1, H2.
Qed.

Lemma reads_main fs net database_url registration_file reference_file
    reference registration out :
  reads fs net database_url registration_file reference_file
        reference registration →
  main fs net database_url registration_file reference_file out
  = convert reference registration out.
Proof.
  intros [Hmode Href Hreg | status_code zip_file Hmode Hnet Hstatus Hreg Href];
    unfold main, convert, acquire; rewrite Hmode.
  - by rewrite (load_tables fs _ _ reference registration).
  - unfold download_database_file. rewrite Hnet, Hstatus. simpl.
    destruct (extract_singleton _ _ _ ∅ Hreg) as [Hin1 E1].
    destruct (extract_singleton _ _ _
                (<[py "MASTER.txt" := registration]> ∅) Href) as [Hin2 E2].
    rewrite !decide_True by done.
    rewrite E1. simpl. rewrite E2. simpl.
    rewrite (load_tables _ _ _ reference registration); [done| |].
    + apply lookup_insert_eq.
    + rewrite lookup_insert_ne by discriminate. apply lookup_insert_eq.
Qed.
End run_facts.

(** C9. Two runs of the command that read the same reference table and
    the same registration table, from files named on the command line or
    from a downloaded archive, write the same lines to the output file
    and end the same way: the output text is identical. *)
Theorem pipeline_deterministic
    (fs1 fs2 : gmap str table) (net1 net2 : str → http)
    (database_url1 database_url2 : str)
    (registration_file1 reference_file1 : option str)
    (registration_file2 reference_file2 : option str)
    (reference registration : table) (out : list str) :
  reads fs1 net1 database_url1 registration_file1 reference_file1
        reference registration →
  reads fs2 net2 database_url2 registration_file2 reference_file2
        reference registration →
  main fs1 net1 database_url1 registration_file1 reference_file1 out
  = main fs2 net2 database_url2 registration_file2 reference_file2 out
  ∧ contents
      (main fs1 net1 database_url1 registration_file1 reference_file1 out).1
    = contents
        (main fs2 net2 database_url2 registration_file2 reference_file2 out).1.
Proof.
  intros H1 H2.
  rewrite (reads_main _ _ _ _ _ _ _ out H1).
  rewrite (reads_main _ _ _ _ _ _ _ out H2).
  done.
Qed.

Lemma pipeline_deterministic_witness :
  main example_fs no_net [] (Some (py "MASTER.txt")) (Some (py "ACFTREF.txt")) []
  = main ∅ example_net (py "https://registry.faa.gov/database/ReleasableAircraft.zip")
      None None []
  ∧ contents
      (main example_fs no_net [] (Some (py "MASTER.txt"))
         (Some (py "ACFTREF.txt")) []).1
    = contents
        (main ∅ example_net
           (py "https://registry.faa.gov/database/ReleasableAircraft.zip")
           None None []).1.
Proof.
  apply (pipeline_deterministic example_fs ∅ no_net example_net []
           (py "https://registry.faa.gov/database/ReleasableAircraft.zip")
           (Some (py "MASTER.txt")) (Some (py "ACFTREF.txt")) None None
           example_reference example_registration []).
  - apply reads_local; vm_compute; reflexivity.
  - apply (reads_remote _ _ _ _ _ _ _ 200
             [(py "ACFTREF.txt", example_reference);
              (py "README.txt", []);
              (py "MASTER.txt", example_registration)]);
      vm_compute; reflexivity.
Defined.

(** ** Reference codes with surrounding whitespace *)




(** * Further properties of the code *)

(** ** What trimming keeps *)

Section strip_more.
Implicit Types s : str.

Lemma lstrip_all_space s :
  Forall (λ c, is_space c = true) s → lstrip s = [].
Proof.
  induction 1 as [|c s Hc _ IH]; simpl; [done|]. by rewrite Hc.
Qed.

Lemma strip_split s :
  ∃ p q, s = p ++ strip s ++ q
         ∧ Forall (λ c, is_space c = true) p
         ∧ Forall (λ c, is_space c = true) q.
Proof.
  destruct (lstrip_split s) as (p & Hs & Hp).
  destruct (lstrip_split (reverse (lstrip s))) as (q & Hq & Hq').
  exists p, (reverse q). split_and!; [|done|by apply Forall_reverse].
  rewrite Hs at 1. f_equal. unfold strip, rstrip.
  rewrite <- reverse_app, <- Hq. by rewrite reverse_involutive.
Qed.
End strip_more.

(** X1. [strip] removes whitespace from the two ends of a string and
    nothing else: the string is the trimmed result between a prefix and a
    suffix made of whitespace only, so whatever stands between the first
    and the last non-whitespace character is kept, inner whitespace
    included; the result is empty exactly when the string holds nothing
    but whitespace. *)
Theorem strip_only_surrounding_whitespace (s : str) :
  (∃ p q, s = p ++ strip s ++ q
          ∧ Forall (λ c, is_space c = true) p
          ∧ Forall (λ c, is_space c = true) q)
  ∧ trimmed (strip s)
  ∧ (strip s = [] ↔ Forall (λ c, is_space c = true) s).
Proof.
  split_and!; [apply strip_split | apply strip_trimmed |].
  split.
  - intros He. destruct (strip_split s) as (p & q & Hs & Hp & Hq).
    rewrite He in Hs. rewrite Hs. by apply Forall_app.
  - intros Hs. unfold strip, rstrip.
    by rewrite (lstrip_all_space s Hs).
Qed.

(** ** Rows longer than the header, columns in another order *)

Section row_shape_facts.
Implicit Types (h r : list str) (k : str).

Lemma DictReader_row_surplus h r (extra : list str) k :
  length h ≤ length r →
  DictReader_row h (r ++ extra) !! Some k = DictReader_row h r !! Some k.
Proof.
  intros Hlen. destruct (decide (k ∈ h)) as [Hk|Hk].
  - apply list_elem_of_split_r in Hk as (h1 & h2 & -> & Hk).
    rewrite !DictReader_row_present by done.
    rewrite length_app in Hlen. simpl in Hlen.
    by rewrite lookup_app_l by lia.
  - by rewrite !DictReader_row_absent.
Qed.

Lemma reference_row_ext (row1 row2 : gmap key value)
    (m : gmap key ReferenceEntry) :
  (∀ k, row1 !! Some k = row2 !! Some k) →
  reference_row row1 m = reference_row row2 m.
Proof. intros H. unfold reference_row, getitem. by rewrite !H. Qed.

Lemma registration_row_ext (row1 row2 : gmap key value) :
  (∀ k, row1 !! Some k = row2 !! Some k) →
  registration_row row1 = registration_row row2.
Proof. intros H. unfold registration_row, getitem. by rewrite !H. Qed.

(** With as many fields as columns and no column twice, the dictionary
    of a row is the finite map of its (column, field) pairs. *)
Lemma dict_zip_list_to_map h r (d : gmap key value) k :
  NoDup h → length h = length r →
  dict_zip h r d !! Some k
  = match (list_to_map (zip h r) : gmap str str) !! k with
    | Some v => Some (VStr v)
    | None => d !! Some k
    end.
Proof.
  intros Hh. revert r d.
  induction Hh as [|k0 h Hk0 _ IH]; intros [|v0 r] d Hlen; simpl in *;
    try done.
  rewrite IH by lia.
  destruct (decide (k = k0)) as [->|Hne].
  - rewrite lookup_insert_eq.
    assert ((list_to_map (zip h r) : gmap str str) !! k0 = None) as ->.
    { apply not_elem_of_list_to_map_1. intros Hin. apply Hk0.
      rewrite fst_zip in Hin by lia. done. }
    by rewrite lookup_insert_eq.
  - rewrite (lookup_insert_ne (list_to_map (zip h r))) by done.
    destruct (list_to_map (zip h r) !! k); [done|].
    apply lookup_insert_ne. congruence.
Qed.

Lemma DictReader_row_full h r :
  length h = length r → DictReader_row h r = dict_zip h r ∅.
Proof.
  intros Hlen. unfold DictReader_row. rewrite Hlen.
  by rewrite Nat.ltb_irrefl.
Qed.
End row_shape_facts.

(** X2. Fields of a data row beyond the last column of the header are
    ignored: when a row has at least as many fields as the header has
    columns, appending further fields to it changes neither what the
    registration loader makes of the row nor what the reference loader
    does with it. *)
Theorem surplus_fields_ignored
    (header row extra : list str) (m : gmap key ReferenceEntry) :
  length header ≤ length row →
  registration_row (DictReader_row header (row ++ extra))
  = registration_row (DictReader_row header row)
  ∧ reference_row (DictReader_row header (row ++ extra)) m
    = reference_row (DictReader_row header row) m.
Proof.
  intros Hlen. split.
  - apply registration_row_ext. intros k. by apply DictReader_row_surplus.
  - apply reference_row_ext. intros k. by apply DictReader_row_surplus.
Qed.

Lemma surplus_fields_ignored_witness :
  registration_row
    (DictReader_row example_header (example_row ++ [py "X"; py " "]))
  = registration_row (DictReader_row example_header example_row)
  ∧ reference_row
      (DictReader_row example_header (example_row ++ [py "X"; py " "])) ∅
    = reference_row (DictReader_row example_header example_row) ∅.
Proof.
  apply (surplus_fields_ignored example_header example_row
           [py "X"; py " "] ∅).
  vm_compute. done.
Defined.

(** X3. Columns are found by name, not by position: for a header
    without repeated column and a row with one field per column,
    rearranging the columns of header and row alike gives the same row
    dictionary, hence the same outcome of either loader. *)
Theorem column_order_irrelevant
    (header row header' row' : list str) (m : gmap key ReferenceEntry) :
  NoDup header →
  length header = length row →
  length header' = length row' →
  zip header' row' ≡ₚ zip header row →
  DictReader_row header' row' = DictReader_row header row
  ∧ registration_row (DictReader_row header' row')
    = registration_row (DictReader_row header row)
  ∧ reference_row (DictReader_row header' row') m
    = reference_row (DictReader_row header row) m.
Proof.
  intros Hnd Hlen Hlen' Hperm.
  assert (DictReader_row header' row' = DictReader_row header row) as ->;
    [|done].
  assert (header' ≡ₚ header) as Hh.
  { rewrite <- (fst_zip header row), <- (fst_zip header' row') by lia.
    by rewrite Hperm. }
  assert (NoDup header') as Hnd' by (by rewrite Hh).
  rewrite !DictReader_row_full by done.
  apply map_eq. intros [k|].
  - rewrite !dict_zip_list_to_map by done.
    rewrite (list_to_map_proper (zip header' row') (zip header row)); [done| |done].
    by rewrite fst_zip by lia.
  - rewrite !dict_zip_other by done. done.
Qed.

Lemma column_order_irrelevant_witness :
  DictReader_row example_header_swapped example_row_swapped
  = DictReader_row example_header example_row
  ∧ registration_row (DictReader_row example_header_swapped example_row_swapped)
    = registration_row (DictReader_row example_header example_row)
  ∧ reference_row (DictReader_row example_header_swapped example_row_swapped) ∅
    = reference_row (DictReader_row example_header example_row) ∅.
Proof.
  apply (column_order_irrelevant example_header example_row
           example_header_swapped example_row_swapped ∅).
  - apply (bool_decide_unpack _). vm_compute. exact I.
  - reflexivity.
  - reflexivity.
  - unfold example_header_swapped, example_row_swapped,
      example_header, example_row. simpl. apply perm_swap.
Defined.

(** ** The keys of the reference mapping *)

Section reference_keys.
Implicit Types (rows : list (gmap key value)).
Implicit Types (m : gmap key ReferenceEntry).

Lemma reference_rows_keys rows m0 m (k : key) :
  reference_rows rows m0 = Ok m →
  is_Some (m !! k)
  ↔ is_Some (m0 !! k)
    ∨ ∃ row, row ∈ rows ∧ value_key <$> row !! Some (py "CODE") = Some k.
Proof.
  revert m0. induction rows as [|row rows IH]; intros m0; simpl.
  - intros [= <-]. split; [by left|].
    intros [?|(row & Hrow & _)]; [done|]. by apply elem_of_nil in Hrow.
  - unfold mbind, result_bind.
    destruct (reference_row row m0) as [m1|] eqn:Hrow; [|done].
    intros Hrows. rewrite (IH _ Hrows).
    apply reference_row_Ok in Hrow as (code & mfr & mdl & Hc & _ & _ & ->).
    rewrite lookup_insert_is_Some. split.
    + intros [[<-|[_ ?]]|(row' & Hin & Hk)].
      * right. exists row. split; [by left|]. by rewrite Hc.
      * by left.
      * right. exists row'. split; [by right|done].
    + intros [Hm0|(row' & Hin & Hk)].
      * left. destruct (decide (value_key code = k)); [by left|by right].
      * apply elem_of_cons in Hin as [->|Hin].
        -- left. left. rewrite Hc in Hk. by injection Hk.
        -- right. by exists row'.
Qed.

Lemma reference_rows_size rows m0 m :
  reference_rows rows m0 = Ok m → size m ≤ size m0 + length rows.
Proof.
  revert m0. induction rows as [|row rows IH]; intros m0; simpl.
  - intros [= <-]. lia.
  - unfold mbind, result_bind.
    destruct (reference_row row m0) as [m1|] eqn:Hrow; [|done].
    intros Hrows%IH.
    apply reference_row_Ok in Hrow as (code & mfr & mdl & _ & _ & _ & ->).
    rewrite map_size_insert in Hrows.
    destruct (m0 !! value_key code); simpl in *; lia.
Qed.
End reference_keys.

(** X4. When the reference loader returns, the keys of the mapping are
    exactly the codes of the non-blank data rows of the table: each row
    contributes its code, nothing else gets in. The mapping therefore has
    at most as many entries as the table has non-blank data rows. *)
Theorem reference_keys_are_the_codes
    (fs : gmap str table) (name : str) (header : list str) (data : table)
    (m : gmap key ReferenceEntry) :
  fs !! name = Some (header :: data) →
  process_aircraft_reference_file fs name = Ok m →
  (∀ k : key,
     is_Some (m !! k)
     ↔ ∃ row, row ∈ data ∧ row ≠ []
              ∧ value_key <$> DictReader_row header row !! Some (py "CODE")
                = Some k)
  ∧ size m ≤ length (filter (λ row, row ≠ []) data).
Proof.
  intros Hfs. unfold process_aircraft_reference_file, open.
  rewrite Hfs. simpl. intros Hm. split.
  - intros k. rewrite (reference_rows_keys _ _ _ k Hm), lookup_empty.
    split.
    + intros [[? ?]|(d & (row & -> & [? ?]%list_elem_of_filter)
                           %list_elem_of_fmap & Hk)]; [done|].
      by exists row.
    + intros (row & Hin & Hne & Hk). right.
      exists (DictReader_row header row). split; [|done].
      apply list_elem_of_fmap. exists row. split; [done|].
      by apply list_elem_of_filter.
  - apply reference_rows_size in Hm.
    by rewrite map_size_empty, length_fmap in Hm.
Qed.

Lemma reference_keys_are_the_codes_witness :
  (∀ k : key,
     is_Some (example_duplicates_mapping !! k)
     ↔ ∃ row, row ∈ tail example_duplicates ∧ row ≠ []
              ∧ value_key
                  <$> DictReader_row [py "CODE"; py "MFR"; py "MODEL"] row
                        !! Some (py "CODE")
                = Some k)
  ∧ size example_duplicates_mapping
    ≤ length (filter (λ row, row ≠ []) (tail example_duplicates)).
Proof.
  apply (reference_keys_are_the_codes
           {[py "ACFTREF.txt" := example_duplicates]} (py "ACFTREF.txt")).
  - vm_compute. reflexivity.
  - vm_compute. reflexivity.
Defined.

(** ** Which exception a loader raises *)

Section loader_exceptions.
Implicit Types (row : gmap key value) (e : exn).








End loader_exceptions.



(** ** Where an acquisition fails *)

Section acquisition_stages.
Implicit Types (net : str → http) (e : exn).




End acquisition_stages.



(** ** A run as a whole *)

Section whole_run.
Implicit Types (fs : gmap str table) (net : str → http).


End whole_run.





(** ** The writer on dictionaries that no loader made *)

Section writer_any_dict.
Implicit Types (d : gmap str str).
Implicit Types (aircraft_reference : gmap key ReferenceEntry).

Lemma join_registration_dom aircraft_reference d :
  dom (join_registration aircraft_reference d) ⊆ list_to_set fieldnames
  ↔ writable d.
Proof.
  unfold join_registration, writable. cbv zeta.
  rewrite !dom_insert_L, dom_delete_L. split; intros H x Hx.
  - apply elem_of_list_to_set.
    destruct (decide (x = py "aircraft_reference_code")) as [->|Hne];
      [by left|].
    right.
    assert (x ∈ (list_to_set fieldnames : gset str))
      as Hin%elem_of_list_to_set; [|done].
    apply H. do 2 (apply elem_of_union; right).
    apply elem_of_difference. split; [done|]. by rewrite elem_of_singleton.
  - apply elem_of_list_to_set. unfold fieldnames.
    apply elem_of_union in Hx as [->%elem_of_singleton|Hx];
      [do 2 right; left|].
    apply elem_of_union in Hx as [->%elem_of_singleton|Hx];
      [right; left|].
    apply elem_of_difference in Hx as [Hx Hne].
    apply H, elem_of_list_to_set, elem_of_cons in Hx as [->|Hx]; [|done].
    by rewrite elem_of_singleton in Hne.
Qed.

Lemma join_registration_written aircraft_reference d :
  writable d →
  dict_to_list (join_registration aircraft_reference d)
  = Ok (written_fields aircraft_reference d).
Proof.
  intros Hd. unfold dict_to_list.
  rewrite decide_True by (by apply join_registration_dom).
  f_equal. unfold join_registration, written_fields, fieldnames. simpl.
  repeat first [ rewrite lookup_insert_eq
               | (rewrite lookup_insert_ne by discriminate)
               | (rewrite lookup_delete_ne by discriminate) ].
  by destruct (aircraft_reference !! _).
Qed.

Lemma join_registration_refused aircraft_reference d :
  ¬ writable d →
  dict_to_list (join_registration aircraft_reference d) = Raise ValueError.
Proof.
  intros Hd. unfold dict_to_list.
  by rewrite decide_False by (by rewrite join_registration_dom).
Qed.

Lemma write_registrations_written aircraft_reference
    (regs : list (gmap str str)) (out : list str) :
  Forall writable regs →
  write_registrations aircraft_reference regs out
  = (out ++ ((λ d, csv_line (written_fields aircraft_reference d)) <$> regs),
     Ok tt).
Proof.
  intros H. revert out. induction H as [|d regs Hd _ IH]; intros out; simpl.
  - by rewrite app_nil_r.
  - unfold mbind, io_bind.
    rewrite (writerow_fields _ _ _
               (join_registration_written aircraft_reference d Hd)).
    rewrite IH. by rewrite <- app_assoc.
Qed.

Lemma write_registrations_refused aircraft_reference
    (pre : list (gmap str str)) (bad : gmap str str)
    (post : list (gmap str str)) (out : list str) :
  Forall writable pre → ¬ writable bad →
  write_registrations aircraft_reference (pre ++ bad :: post) out
  = (out ++ ((λ d, csv_line (written_fields aircraft_reference d)) <$> pre),
     Raise ValueError).
Proof.
  intros H Hbad. revert out.
  induction H as [|d pre Hd _ IH]; intros out; simpl.
  - unfold mbind, io_bind, writerow, mbind, io_bind, lift.
    rewrite (join_registration_refused _ _ Hbad). by rewrite app_nil_r.
  - unfold mbind at 1, io_bind.
    rewrite (writerow_fields _ _ _
               (join_registration_written aircraft_reference d Hd)).
    rewrite IH. by rewrite <- app_assoc.
Qed.
End writer_any_dict.

(** X9. The writer accepts any dictionary whose keys are columns of the
    output or the reference code, whatever is missing. A missing field
    is written as the empty string; a missing reference code is looked
    up as the empty code; a make or model the dictionary brings along is
    replaced by the outcome of the lookup. One line per dictionary is
    written after the header, in order. *)
Theorem writer_fills_missing_fields
    (regs : list (gmap str str))
    (aircraft_reference : gmap key ReferenceEntry) (out : list str) :
  Forall writable regs →
  create_emcomm_tools_file regs aircraft_reference out
  = (out
       ++ csv_line fieldnames
       :: ((λ d, csv_line (written_fields aircraft_reference d)) <$> regs),
     Ok tt).
Proof.
  intros H. unfold create_emcomm_tools_file, mbind, io_bind.
  rewrite writeheader_line, write_registrations_written by done.
  by rewrite <- app_assoc.
Qed.

Lemma writer_fills_missing_fields_witness :
  create_emcomm_tools_file [example_sparse] example_mapping []
  = ([] ++ csv_line fieldnames
        :: ((λ d, csv_line (written_fields example_mapping d))
              <$> [example_sparse]),
     Ok tt).
Proof.
  apply (writer_fills_missing_fields [example_sparse] example_mapping []).
  apply Forall_cons. split; [|by apply Forall_nil].
  apply (bool_decide_unpack _). vm_compute. exact I.
Defined.

(** X10. A dictionary with a key that is neither a column of the output
    nor the reference code stops the writer: it raises [ValueError] at
    the first such dictionary, writes no line for it nor for those after
    it, and leaves the header and the lines of the dictionaries before it
    in the output. *)
Theorem writer_stops_at_foreign_key
    (pre : list (gmap str str)) (bad : gmap str str)
    (post : list (gmap str str))
    (aircraft_reference : gmap key ReferenceEntry) (out : list str) :
  Forall writable pre →
  ¬ writable bad →
  create_emcomm_tools_file (pre ++ bad :: post) aircraft_reference out
  = (out
       ++ csv_line fieldnames
       :: ((λ d, csv_line (written_fields aircraft_reference d)) <$> pre),
     Raise ValueError).
Proof.
  intros Hpre Hbad. unfold create_emcomm_tools_file, mbind, io_bind.
  rewrite writeheader_line, write_registrations_refused by done.
  by rewrite <- app_assoc.
Qed.

Lemma writer_stops_at_foreign_key_witness :
  create_emcomm_tools_file
    ([example_sparse] ++ example_foreign :: [example_sparse])
    example_mapping []
  = ([] ++ csv_line fieldnames
        :: ((λ d, csv_line (written_fields example_mapping d))
              <$> [example_sparse]),
     Raise ValueError).
Proof.
  apply (writer_stops_at_foreign_key [example_sparse] example_foreign
           [example_sparse] example_mapping []).
  - apply Forall_cons. split; [|by apply Forall_nil].
    apply (bool_decide_unpack _). vm_compute. exact I.
  - intros H. apply (bool_decide_pack _) in H. vm_compute in H. exact H.
Defined.

Example writer_sparse_example :
  create_emcomm_tools_file [example_sparse] example_mapping []
  = ([py "tail_number|make|model|year|owner_name|city|state|mode_s_hex|registrant_type"
        ++ lineterminator;
      py "N1|Unknown|Unknown||||||" ++ lineterminator],
     Ok tt).
Proof. vm_compute. reflexivity. Qed.

(** ** A line determines its row *)

Section csv_read_back.
Implicit Types (f cur rest : str) (fields : list str).

Lemma csv_read_plain cur f rest :
  existsb special f = false → follows rest →
  csv_read InPlain cur (f ++ rest) = csv_rest (cur ++ f) rest.
Proof.
  intros Hf Hrest. revert cur.
  induction f as [|c f IH]; intros cur; simpl.
  - rewrite app_nil_r. by destruct Hrest as [->|[rest' ->]].
  - simpl in Hf. apply orb_false_iff in Hf as [Hc Hf].
    unfold special in Hc. rewrite !orb_false_iff in Hc.
    destruct Hc as [[[-> _] _] _].
    rewrite IH by done. by rewrite <- app_assoc.
Qed.

Lemma csv_read_quoted cur f rest :
  follows rest →
  csv_read InQuoted cur
    ((f ≫= λ c, if (c =? quotechar)%N then [c; c] else [c])
       ++ quotechar :: rest)
  = csv_rest (cur ++ f) rest.
Proof.
  intros Hrest. revert cur.
  induction f as [|c f IH]; intros cur.
  - simpl. rewrite app_nil_r. by destruct Hrest as [->|[rest' ->]].
  - change ((c :: f) ≫= _) with
      ((if (c =? quotechar)%N then [c; c] else [c])
         ++ (f ≫= λ c, if (c =? quotechar)%N then [c; c] else [c])).
    destruct (N.eqb_spec c quotechar) as [->|Hc]; simpl.
    + rewrite IH. by rewrite <- app_assoc.
    + apply N.eqb_neq in Hc. rewrite Hc.
      rewrite IH. by rewrite <- app_assoc.
Qed.

Lemma csv_read_field f rest :
  follows rest →
  csv_read AtStart [] (csv_field f ++ rest) = csv_rest f rest.
Proof.
  intros Hrest. unfold csv_field.
  destruct (existsb special f) eqn:Hf.
  - rewrite <- app_comm_cons, <- app_assoc.
    change ([quotechar] ++ rest) with (quotechar :: rest).
    change (csv_read AtStart [] (quotechar :: ?s))
      with (csv_read InQuoted [] s).
    by rewrite csv_read_quoted.
  - destruct f as [|c f]; simpl.
    + by destruct Hrest as [->|[rest' ->]].
    + simpl in Hf. apply orb_false_iff in Hf as [Hc Hf].
      unfold special in Hc. rewrite !orb_false_iff in Hc.
      destruct Hc as [[[-> ->] _] _].
      by rewrite csv_read_plain.
Qed.

Lemma csv_join_cons f fields :
  csv_join (f :: fields)
  = f ++ match fields with [] => [] | _ => delimiter :: csv_join fields end.
Proof. destruct fields; simpl; [by rewrite app_nil_r | done]. Qed.

Lemma csv_read_join f fields :
  csv_read AtStart [] (csv_join (csv_field <$> f :: fields)) = f :: fields.
Proof.
  revert f. induction fields as [|f' fields IH]; intros f.
  - rewrite fmap_cons, csv_join_cons. simpl.
    rewrite csv_read_field by (by left). done.
  - rewrite fmap_cons, csv_join_cons. rewrite fmap_cons.
    rewrite csv_read_field by (right; by eexists).
    simpl. f_equal. apply (IH f').
Qed.

(** The text of a line before its terminator. *)
Lemma csv_line_body fields :
  ∃ body, csv_line fields = body ++ lineterminator
          ∧ (fields = [] → body = [])
          ∧ (fields ≠ [] → body ≠ [] ∧ csv_read AtStart [] body = fields).
Proof.
  destruct fields as [|f fields].
  - exists []. by split_and!.
  - destruct (decide (f = [] ∧ fields = [])) as [[-> ->]|Hne].
    + exists [quotechar; quotechar]. by split_and!.
    + exists (csv_join (csv_field <$> f :: fields)). split_and!.
      * destruct f; [destruct fields|]; try done. by destruct Hne.
      * done.
      * intros _. split; [|apply csv_read_join].
        rewrite fmap_cons, csv_join_cons.
        destruct fields as [|f' fields].
        -- simpl. rewrite app_nil_r. unfold csv_field.
           destruct (existsb special f); [done|].
           destruct f; [by destruct Hne | done].
        -- intros H%app_eq_nil. by destruct H.
Qed.
End csv_read_back.

(** X11. A line determines its row: two rows are written as the same
    line only if they are the same row. Whatever the fields hold, a
    pipe, a quote, a line break, the quoting of the writer keeps rows
    with different fields, or a different number of fields, apart. *)
Theorem csv_line_injective (fields1 fields2 : list str) :
  csv_line fields1 = csv_line fields2 → fields1 = fields2.
Proof.
  destruct (csv_line_body fields1) as (b1 & -> & Hnil1 & Hcons1).
  destruct (csv_line_body fields2) as (b2 & -> & Hnil2 & Hcons2).
  intros ->%app_inv_tail.
  destruct fields1 as [|f1 l1], fields2 as [|f2 l2]; [done| | |].
  - destruct Hcons2 as [Hb _]; [done|]. by rewrite Hnil1 in Hb.
  - destruct Hcons1 as [Hb _]; [done|]. by rewrite Hnil2 in Hb.
  - destruct Hcons1 as [_ <-]; [done|]. by destruct Hcons2 as [_ <-].
Qed.

Lemma csv_line_injective_witness :
  example_awkward_row = csv_read AtStart []
    (csv_join (csv_field <$> example_awkward_row)).
Proof.
  apply (csv_line_injective example_awkward_row
           (csv_read AtStart [] (csv_join (csv_field <$> example_awkward_row)))).
  vm_compute. reflexivity.
Defined.

(** ** What a successful run writes *)

(** X12. The loaders and the writer compose as a join. When a run that
    reads a reference table and a registration table returns normally,
    the reference rows have given a mapping, every non-blank
    registration row has given a record, in order, and the output has
    grown by the header line followed, record by record, by the line of
    the record joined with the mapping: make and model from the entry
    under the record's trimmed code, or [Unknown]. *)
Theorem run_output
    (fs : gmap str table) (net : str → http) (database_url : str)
    (registration_file reference_file : option str)
    (reference registration : table) (out out' : list str) :
  reads fs net database_url registration_file reference_file
        reference registration →
  main fs net database_url registration_file reference_file out
    = (out', Ok tt) →
  ∃ (m : gmap key ReferenceEntry) (recs : list RegistrationRecord),
    reference_rows (DictReader reference) ∅ = Ok m
    ∧ Forall2 (λ row r, registration_row row = Ok r)
              (DictReader registration) recs
    ∧ out' = out ++ csv_line fieldnames
                 :: ((λ r, csv_line (output_record m r)) <$> recs).
Proof.
  intros Hreads. rewrite (reads_main _ _ _ _ _ _ _ out Hreads).
  unfold convert, mbind at 1, io_bind, lift.
  unfold mbind at 1, result_bind.
  destruct (reference_rows (DictReader reference) ∅) as [m|]; [|done].
  unfold mbind at 1, result_bind.
  destruct (for_each _ (DictReader registration)) as [regs|] eqn:Hregs;
    [|done].
  apply registration_rows_Ok in Hregs as (recs & -> & Hrecs).
  rewrite create_emcomm_tools_file_lines. intros [= <-].
  by exists m, recs.
Qed.

Lemma run_output_witness :
  ∃ (m : gmap key ReferenceEntry) (recs : list RegistrationRecord),
    reference_rows (DictReader example_reference) ∅ = Ok m
    ∧ Forall2 (λ row r, registration_row row = Ok r)
              (DictReader example_registration) recs
    ∧ (main example_fs no_net [] (Some (py "MASTER.txt"))
         (Some (py "ACFTREF.txt")) []).1
      = [] ++ csv_line fieldnames
              :: ((λ r, csv_line (output_record m r)) <$> recs).
Proof.
  apply (run_output example_fs no_net [] (Some (py "MASTER.txt"))
           (Some (py "ACFTREF.txt")) example_reference example_registration).
  - apply reads_local; vm_compute; reflexivity.
  - vm_compute. reflexivity.
Defined.

(** ** Reference rows with distinct codes, in any order *)

Section reference_order.
Implicit Types (rows : list (gmap key value)).
Implicit Types (m : gmap key ReferenceEntry).

Lemma reference_row_entry (row : gmap key value) (k : key)
    (e : ReferenceEntry) code mfr mdl :
  row !! Some (py "CODE") = Some code →
  row !! Some (py "MFR") = Some (VStr mfr) →
  row !! Some (py "MODEL") = Some (VStr mdl) →
  reference_row row ∅ = Ok {[k := e]}
  ↔ k = value_key code
    ∧ e = {| manufacturer := strip mfr; model := strip mdl |}.
Proof.
  intros Hc Hm Hd. unfold reference_row, getitem. rewrite Hc, Hm, Hd.
  simpl. split.
  - intros Heq.
    apply (f_equal (λ r : result (gmap key ReferenceEntry),
                      match r with
                      | Ok d => d !! value_key code
                      | Raise _ => None
                      end)) in Heq.
    rewrite lookup_insert_eq in Heq. symmetry in Heq.
    apply lookup_singleton_Some in Heq as [-> ->]. done.
  - intros [-> ->]. by rewrite insert_empty.
Qed.

Lemma reference_rows_entries rows m0 m (k : key) (e : ReferenceEntry) :
  reference_rows rows m0 = Ok m →
  NoDup ((λ row, value_key <$> row !! Some (py "CODE")) <$> rows) →
  m !! k = Some e
  ↔ (∃ row, row ∈ rows ∧ reference_row row ∅ = Ok {[k := e]})
    ∨ (m0 !! k = Some e
       ∧ Some k ∉ (λ row, value_key <$> row !! Some (py "CODE")) <$> rows).
Proof.
  revert m0. induction rows as [|row rows IH]; intros m0; simpl.
  - intros [= <-] _. split.
    + intros H. right. split; [done|]. apply not_elem_of_nil.
    + intros [(row & Hin & _)|[H _]]; [by apply elem_of_nil in Hin|done].
  - unfold mbind, result_bind.
    destruct (reference_row row m0) as [m1|] eqn:Hrow; [|done].
    intros Hrows [Hfresh Hnd]%NoDup_cons.
    apply reference_row_Ok in Hrow as (code & mfr & mdl & Hc & Hm & Hd & ->).
    rewrite Hc in Hfresh. simpl in Hfresh.
    rewrite (IH _ Hrows Hnd), Hc. simpl.
    rewrite lookup_insert_Some, not_elem_of_cons. split.
    + intros [(row' & Hin & Hentry)|[[[<- <-]|[Hne Hm0]] Hk]].
      * left. exists row'. split; [by right|done].
      * left. exists row. split; [by left|].
        by apply (reference_row_entry row _ _ code mfr mdl).
      * right. split_and!; [done| |done]. congruence.
    + intros [(row' & Hin & Hentry)|(Hm0 & Hne & Hk)].
      * apply elem_of_cons in Hin as [->|Hin].
        -- apply (reference_row_entry row _ _ code mfr mdl) in Hentry
             as [-> ->]; [|done..].
           right. split; [by left|done].
        -- left. by exists row'.
      * right. split; [|done]. right. split; [congruence|done].
Qed.

Lemma reference_rows_Ok_all rows m0 m :
  reference_rows rows m0 = Ok m → Forall reference_row_ok rows.
Proof.
  revert m0. induction rows as [|row rows IH]; intros m0; simpl;
    [by constructor|].
  unfold mbind, result_bind.
  destruct (reference_row row m0) as [m1|] eqn:Hrow; [|done].
  intros Hrows. constructor; [|by eapply IH].
  apply (reference_row_returns row m0). by eexists.
Qed.

Lemma reference_rows_all_Ok rows m0 :
  Forall reference_row_ok rows → returns (reference_rows rows m0).
Proof.
  intros H. revert m0. induction H as [|row rows Hrow _ IH]; intros m0; simpl.
  - by eexists.
  - apply (reference_row_returns row m0) in Hrow as [m1 ->]. apply IH.
Qed.

Lemma reference_rows_permutation rows rows' m :
  rows' ≡ₚ rows →
  NoDup ((λ row, value_key <$> row !! Some (py "CODE")) <$> rows) →
  reference_rows rows ∅ = Ok m →
  reference_rows rows' ∅ = Ok m.
Proof.
  intros Hperm Hnd Hm.
  assert (NoDup ((λ row, value_key <$> row !! Some (py "CODE")) <$> rows'))
    as Hnd' by (by rewrite Hperm).
  assert (Forall reference_row_ok rows') as Hok.
  { rewrite Hperm. by eapply reference_rows_Ok_all. }
  destruct (reference_rows_all_Ok rows' ∅ Hok) as [m' Hm']. rewrite Hm'.
  f_equal. apply map_eq. intros k. apply option_eq. intros e.
  rewrite (reference_rows_entries _ _ _ k e Hm' Hnd').
  rewrite (reference_rows_entries _ _ _ k e Hm Hnd).
  rewrite !lookup_empty.
  split; (intros [(row & Hin & Hrow)|[[=] _]]; left; exists row;
          split; [|done]).
  - by rewrite <- Hperm.
  - by rewrite Hperm.
Qed.
End reference_order.

(** X13. The order of the reference rows matters only among rows that
    share a code. When the non-blank data rows of a reference table carry
    pairwise distinct codes and the loader returns a mapping for the
    table, it returns the same mapping for the table with its data rows
    in any other order. *)
Theorem reference_row_order_irrelevant
    (fs fs' : gmap str table) (name name' : str) (header : list str)
    (data data' : table) (m : gmap key ReferenceEntry) :
  fs !! name = Some (header :: data) →
  fs' !! name' = Some (header :: data') →
  data' ≡ₚ data →
  NoDup ((λ row, value_key <$> DictReader_row header row !! Some (py "CODE"))
           <$> filter (λ row, row ≠ []) data) →
  process_aircraft_reference_file fs name = Ok m →
  process_aircraft_reference_file fs' name' = Ok m.
Proof.
  intros Hfs Hfs' Hperm Hnd.
  unfold process_aircraft_reference_file, open. rewrite Hfs, Hfs'. simpl.
  apply reference_rows_permutation.
  - by rewrite Hperm.
  - by rewrite <- list_fmap_compose.
Qed.

Lemma reference_row_order_irrelevant_witness :
  process_aircraft_reference_file
    (dict_of [(py "B.txt", [[py "CODE"; py "MFR"; py "MODEL"];
                            [py "B"; py "PIPER"; py "PA28"];
                            [py "A"; py "BEECH "; py " 35"]])])
    (py "B.txt")
  = Ok example_duplicates_mapping.
Proof.
  apply (reference_row_order_irrelevant
           (dict_of [(py "A.txt", [[py "CODE"; py "MFR"; py "MODEL"];
                                   [py "A"; py "BEECH "; py " 35"];
                                   [py "B"; py "PIPER"; py "PA28"]])])
           _ (py "A.txt") (py "B.txt") [py "CODE"; py "MFR"; py "MODEL"]
           [[py "A"; py "BEECH "; py " 35"]; [py "B"; py "PIPER"; py "PA28"]]
           [[py "B"; py "PIPER"; py "PA28"]; [py "A"; py "BEECH "; py " 35"]]).
  - vm_compute. reflexivity.
  - vm_compute. reflexivity.
  - apply perm_swap.
  - apply (bool_decide_unpack _). vm_compute. exact I.
  - vm_compute. reflexivity.
Defined.
